(** * Module federation: container, remote-reference and shared-consume glue

    A shallow embedding of
    - [lib/container/ContainerEntryModule.js] (the emitted [moduleMap],
      [get] and [init]),
    - [lib/container/ContainerReferencePlugin.js] (external registration
      and the [factorize] hook), and
    - [lib/sharing/ConsumeSharedPlugin.js] (option mappers,
      [createConsumeSharedModule] and the [factorize] hook),
    together with the properties the specification states about them. *)

From Stdlib Require Import Ascii String.
From stdpp Require Import base option strings list gmap pretty.

(** ** JavaScript strings

    Strings are sequences of code units; the requests and keys handled
    here are modelled as [string].  Each helper carries the name of the
    [String.prototype] method it stands for. *)
Module JS.

(** [s.startsWith(p)] *)
Fixpoint startsWith (s p : string) {struct p} : bool :=
  match p with
  | "" => true
  | String c p' =>
      match s with
      | "" => false
      | String d s' => if Ascii.eqb c d then startsWith s' p' else false
      end
  end.

(** [s.slice(n)] for a non-negative [n]: the code units from index [n] on,
    the empty string when [n] is past the end. *)
Fixpoint slice (s : string) (n : nat) {struct n} : string :=
  match n with
  | 0 => s
  | S n' => match s with "" => "" | String _ s' => slice s' n' end
  end.

(** [s.charCodeAt(i)]; [None] stands for [NaN] (index out of range). *)
Fixpoint charCodeAt (s : string) (i : nat) : option nat :=
  match s with
  | "" => None
  | String c s' => match i with 0 => Some (nat_of_ascii c) | S i' => charCodeAt s' i' end
  end.

(** [s.includes(sub)] *)
Fixpoint includes (s sub : string) : bool :=
  startsWith s sub ||
  match s with "" => false | String _ s' => includes s' sub end.

(** [xs.join(sep)] *)
Fixpoint join (sep : string) (xs : list string) : string :=
  match xs with
  | [] => ""
  | [x] => x
  | x :: rest => x +:+ sep +:+ join sep rest
  end.

(** Truthiness of a string-or-undefined value: [undefined] and the empty
    string are falsy. *)
Definition truthyStr (o : option string) : bool :=
  match o with
  | Some s => negb (String.eqb s "")
  | None => false
  end.

(** [a || b] on string-or-undefined operands with a string default. *)
Definition orElse (o : option string) (d : string) : string :=
  match o with
  | Some s => if String.eqb s "" then d else s
  | None => d
  end.

(** The double-quote character as a one-character string. *)
Definition dquote : string := String (ascii_of_nat 34) "".

End JS.

(** ** Remote references ([ContainerReferencePlugin])

    [remotes] is the plugin's [_remotes] field: an ordered list of
    [(key, config)] pairs. *)
Module ContainerReference.
Import JS.

Record RemoteConfig := {
  external : list string;
  shareScope : string
}.

(** The arguments handed to [new RemoteModule(request, externalRequests,
    internalRequest, shareScope)]. *)
Record RemoteModule := {
  request : string;
  externalRequests : list string;
  internalRequest : string;
  moduleShareScope : string
}.

(** ["/".charCodeAt(0)] *)
Definition slashCode : nat := nat_of_ascii "/"%char.

(** The template literal
    [`webpack/container/reference/${key}${i ? `/fallback-${i}` : ""}`]. *)
Definition referenceName (key : string) (i : nat) : string :=
  "webpack/container/reference/" +:+ key +:+
  (match i with 0 => "" | S _ => "/fallback-" +:+ pretty i end).

(** [external.startsWith("internal ")] *)
Definition isInternal (target : string) : bool := startsWith target "internal ".

(** The inner loop of [apply] over [config.external]: the counter [i] is
    advanced only for targets that are registered. *)
Fixpoint registerExternals (key : string) (targets : list string) (i : nat)
    (remoteExternals : gmap string string) : gmap string string :=
  match targets with
  | [] => remoteExternals
  | target :: rest =>
      if isInternal target then registerExternals key rest i remoteExternals
      else registerExternals key rest (S i)
             (<[referenceName key i := target]> remoteExternals)
  end.

(** The outer loop of [apply], starting from an arbitrary table. *)
Fixpoint registerRemotes (remotes : list (string * RemoteConfig))
    (remoteExternals : gmap string string) : gmap string string :=
  match remotes with
  | [] => remoteExternals
  | (key, config) :: rest =>
      registerRemotes rest (registerExternals key (external config) 0 remoteExternals)
  end.

(** The table passed to [ExternalsPlugin]. *)
Definition remoteExternals (remotes : list (string * RemoteConfig)) : gmap string string :=
  registerRemotes remotes ∅.

(** The condition of the [if] inside the [factorize] hook. *)
Definition remoteMatches (req key : string) : bool :=
  startsWith req key &&
  (Nat.eqb (String.length req) (String.length key) ||
   bool_decide (charCodeAt req (String.length key) = Some slashCode)).

(** [config.external.map((external, i) => ...)] *)
Definition remoteRequests (key : string) (config : RemoteConfig) : list string :=
  imap (λ i target, if isInternal target then slice target 9 else referenceName key i)
       (external config).

Definition remoteModuleFor (req key : string) (config : RemoteConfig) : RemoteModule :=
  {| request := req;
     externalRequests := remoteRequests key config;
     internalRequest := "." +:+ slice req (String.length key);
     moduleShareScope := shareScope config |}.

(** The [for] loop of the hook: the first matching remote returns. *)
Fixpoint findRemote (remotes : list (string * RemoteConfig)) (req : string)
    : option RemoteModule :=
  match remotes with
  | [] => None
  | (key, config) :: rest =>
      if remoteMatches req key then Some (remoteModuleFor req key config)
      else findRemote rest req
  end.

(** The [factorize] hook; [None] is the hook's [undefined] result, which
    leaves the request to the normal module factory. *)
Definition factorize (remotes : list (string * RemoteConfig)) (req : string)
    : option RemoteModule :=
  if includes req "!" then None else findRemote remotes req.

(** The matching rule in the specification's words: the request starts with
    the key, and what follows the key is nothing or begins with [/]. *)
Definition belongsTo (req key : string) : Prop :=
  ∃ rest, req = key +:+ rest ∧ (rest = "" ∨ ∃ tail, rest = String "/"%char tail).

(** The reference-name shape in the specification's words. *)
Definition hasReferenceShape (name key : string) (i : nat) : Prop :=
  (i = 0 ∧ name = "webpack/container/reference/" +:+ key) ∨
  (i ≠ 0 ∧ name = "webpack/container/reference/" +:+ key +:+ "/fallback-" +:+ pretty i).

(** *** The constructor *)

(** A short-hand value of [remotes], or the [external] property of a
    long-hand one: a container location or an array of them. *)
Inductive RemotesItem :=
  | RemoteLocation (location : string)
  | RemoteLocations (locations : list string).

(** [Array.isArray(item) ? item : [item]] *)
Definition externalsOf (item : RemotesItem) : list string :=
  match item with
  | RemoteLocation location => [location]
  | RemoteLocations locations => locations
  end.

(** The first mapper passed to [parseOptions] by the constructor;
    [optionsShareScope] is [options.shareScope]. *)
Definition remoteSimple (optionsShareScope : option string) (item : RemotesItem)
    : RemoteConfig :=
  {| external := externalsOf item;
     shareScope := orElse optionsShareScope "default" |}.

(** The second mapper, for an item with properties [external] and
    [shareScope]. *)
Definition remoteConfig (optionsShareScope : option string) (itemExternal : RemotesItem)
    (itemShareScope : option string) : RemoteConfig :=
  {| external := externalsOf itemExternal;
     shareScope := orElse itemShareScope (orElse optionsShareScope "default") |}.

End ContainerReference.

(** ** The container entry ([ContainerEntryModule])

    [build] turns the exposes into blocks of dependencies, [codeGeneration]
    emits the glue ([moduleMap], [get], [init]), and the glue runs against
    the runtime object [__webpack_require__]. *)
Module ContainerEntry.
Import JS.

(** *** Values and completions at run time *)

(** JavaScript values seen by the glue.  Objects and arrays carry a
    reference, which is what [===] compares. *)
#[warnings="-register-all"] Inductive value :=
  | VUndefined
  | VNull
  | VBool (b : bool)
  | VNum (n : Z)
  | VStr (s : string)
  | VObject (ref : nat)
  | VArray (ref : nat) (items : list value).

(** [ToBoolean] *)
Definition truthy (v : value) : bool :=
  match v with
  | VUndefined | VNull => false
  | VBool b => b
  | VNum n => negb (Z.eqb n 0)
  | VStr s => negb (String.eqb s "")
  | VObject _ | VArray _ _ => true
  end.

(** [a === b] *)
Definition strictEq (a b : value) : bool :=
  match a, b with
  | VUndefined, VUndefined => true
  | VNull, VNull => true
  | VBool x, VBool y => Bool.eqb x y
  | VNum x, VNum y => Z.eqb x y
  | VStr x, VStr y => String.eqb x y
  | VObject r, VObject r' => Nat.eqb r r'
  | VArray r _, VArray r' _ => Nat.eqb r r'
  | _, _ => false
  end.

Inductive error :=
  | Error (message : string)
    (** [new Error(message)] *)
  | MissingModuleError (request : string)
    (** the error of the missing-module path, naming the requests *).

(** How a call ends. *)
Inductive completion (A : Type) :=
  | Return (a : A)
  | Throw (e : error).
Arguments Return {A} a.
Arguments Throw {A} e.

(** A promise, identified with the way it settles. *)
Inductive promise (A : Type) :=
  | Fulfilled (a : A)
  | Rejected (e : error).
Arguments Fulfilled {A} a.
Arguments Rejected {A} e.

(** *** Build time *)

(** [ExposeOptions] *)
Record ExposeOptions := {
  import : list string;
  name : option string
}.

(** A short-hand value of [exposes]: a request or an array of requests. *)
Inductive ExposesItem :=
  | ExposeRequest (req : string)
  | ExposeRequests (reqs : list string).

(** The first mapper passed to [parseOptions] by [ContainerPlugin]:
    [{ import: Array.isArray(item) ? item : [item], name: undefined }] *)
Definition exposeSimple (item : ExposesItem) : ExposeOptions :=
  {| import := match item with ExposeRequest req => [req] | ExposeRequests reqs => reqs end;
     name := None |}.

(** The second mapper: [{ import: Array.isArray(item.import) ? item.import :
    [item.import], name: item.name || undefined }] *)
Definition exposeConfig (itemImport : ExposesItem) (itemName : option string)
    : ExposeOptions :=
  {| import := match itemImport with
               | ExposeRequest req => [req]
               | ExposeRequests reqs => reqs
               end;
     name := if truthyStr itemName then itemName else None |}.

(** [ContainerExposedDependency], with the [index] of its [loc]. *)
Record ContainerExposedDependency := {
  exposedName : string;
  userRequest : string;
  index : nat
}.

(** [AsyncDependenciesBlock]: group options, [loc] name, request and the
    dependencies added to it. *)
Record AsyncDependenciesBlock := {
  groupName : option string;
  locName : string;
  blockRequest : option string;
  dependencies : list ContainerExposedDependency
}.

(** The inner loop of [build]: one dependency per import request, numbered
    from [idx]. *)
Fixpoint exposedDependencies (exposed : string) (requests : list string) (idx : nat)
    : list ContainerExposedDependency :=
  match requests with
  | [] => []
  | req :: rest =>
      {| exposedName := exposed; userRequest := req; index := idx |}
      :: exposedDependencies exposed rest (S idx)
  end.

Definition exposeBlock (exposed : string) (options : ExposeOptions) : AsyncDependenciesBlock :=
  {| groupName := name options;
     locName := exposed;
     blockRequest := last (import options);
     dependencies := exposedDependencies exposed (import options) 0 |}.

(** [build]: the blocks of the module, in the order of [_exposes]. *)
Definition build (exposes : list (string * ExposeOptions)) : list AsyncDependenciesBlock :=
  map (λ e, exposeBlock e.1 e.2) exposes.

(** *** Code generation *)

(** A module of the graph, as [__webpack_require__] addresses it. *)
Definition Module := nat.

(** [{ name, module, request }], the elements of [modules]. *)
Record ExposedModule := {
  em_name : string;
  em_module : option Module;
  em_request : string
}.

(** [runtimeTemplate.moduleRaw({ module, request, ... })]: the expression
    requiring [module]. *)
Record ModuleRaw := {
  rawModule : Module;
  rawRequest : string
}.

(** The body [str] of an emitted getter: either the block of
    [runtimeTemplate.throwMissingModuleErrorBlock({ request })], or
    [return <blockPromise>.then(() => (() => ((e1, ..., en))))], where the
    [ei] are the [moduleRaw] expressions, joined by [", "] inside one pair
    of parentheses. *)
Inductive getterBody :=
  | ThrowMissingModule (request : string)
  | ReturnBlockPromise (block : AsyncDependenciesBlock) (sequence : list ModuleRaw).

Section CodeGeneration.

(** [moduleGraph.getModule(dep)]; [None] when the dependency did not
    resolve. *)
Variable getModule : ContainerExposedDependency → option Module.

(** The element of [modules] built from a dependency of the block. *)
Definition toExposedModule (dep : ContainerExposedDependency) : ExposedModule :=
  {| em_name := exposedName dep;
     em_module := getModule dep;
     em_request := userRequest dep |}.

(** [dependencies.map(dependency => ({ name, module, request }))] *)
Definition exposedModules (block : AsyncDependenciesBlock) : list ExposedModule :=
  map toExposedModule (dependencies block).

(** [!m.module] *)
Definition unresolved (m : ExposedModule) : bool :=
  negb (bool_decide (is_Some (em_module m))).

Definition moduleRaws (modules : list ExposedModule) : list ModuleRaw :=
  omap (λ m, (λ md, {| rawModule := md; rawRequest := em_request m |}) <$> em_module m)
       modules.

(** One iteration of the loop over [this.blocks]: the property name and
    body pushed to [getters].  [None] when [modules[0]] is [undefined],
    where reading [.name] raises a TypeError. *)
Definition blockGetter (block : AsyncDependenciesBlock) : option (string * getterBody) :=
  let modules := exposedModules block in
  let str :=
    if existsb unresolved modules
    then ThrowMissingModule (join ", " (map em_request modules))
    else ReturnBlockPromise block (moduleRaws modules) in
  match modules with
  | [] => None
  | m0 :: _ => Some (em_name m0, str)
  end.

(** The object literal [{ k1: f1, k2: f2, ... }]: a later property of the
    same name replaces an earlier one. *)
Definition objectLiteral (getters : list (string * getterBody)) : gmap string getterBody :=
  foldl (λ obj g, <[g.1 := g.2]> obj) ∅ getters.

(** The [moduleMap] emitted by [codeGeneration] for the given blocks. *)
Definition codeGeneration (blocks : list AsyncDependenciesBlock)
    : option (gmap string getterBody) :=
  objectLiteral <$> mapM blockGetter blocks.

(** A [moduleRaw] expression stands for a dependency: it requires the
    module the dependency resolved to, under the request of the
    dependency. *)
Definition rawOf (raw : ModuleRaw) (dep : ContainerExposedDependency) : Prop :=
  getModule dep = Some (rawModule raw) ∧ rawRequest raw = userRequest dep.

End CodeGeneration.

(** *** Run time *)

(** The part of [__webpack_require__] and of the module scope the glue
    touches. *)
Record Runtime := {
  shareScopeMap : option (gmap string value);
    (** [__webpack_require__.S]; [None] when the property is not installed *)
  currentRemoteGetScope : value;
    (** [__webpack_require__.R] *)
  moduleMap : gmap string getterBody;
  requireLog : list Module
    (** the modules passed to [__webpack_require__], oldest first *)
}.

Definition setShareScopeMap (scopes : gmap string value) (rt : Runtime) : Runtime :=
  {| shareScopeMap := Some scopes;
     currentRemoteGetScope := currentRemoteGetScope rt;
     moduleMap := moduleMap rt;
     requireLog := requireLog rt |}.

Definition setCurrentRemoteGetScope (v : value) (rt : Runtime) : Runtime :=
  {| shareScopeMap := shareScopeMap rt;
     currentRemoteGetScope := v;
     moduleMap := moduleMap rt;
     requireLog := requireLog rt |}.

Definition logRequire (m : Module) (rt : Runtime) : Runtime :=
  {| shareScopeMap := shareScopeMap rt;
     currentRemoteGetScope := currentRemoteGetScope rt;
     moduleMap := moduleMap rt;
     requireLog := requireLog rt ++ [m] |}.

(** The registry slot of a scope name: [__webpack_require__.S[name]], when
    there is one. *)
Definition registrySlot (rt : Runtime) (scopeName : string) : option value :=
  match shareScopeMap rt with
  | Some scopes => scopes !! scopeName
  | None => None
  end.

Section Glue.

(** The promise emitted by [runtimeTemplate.blockPromise] for a block:
    fulfilled once its chunks are loaded. *)
Variable blockPromise : AsyncDependenciesBlock → promise unit.

(** [module.exports] of a module of the graph. *)
Variable moduleExports : Module → value.

(** [__webpack_require__.I], the runtime's [initializeSharing]. *)
Variable initializeSharing : string → value → Runtime → completion value * Runtime.

(** Modelled from the spec: [runtimeTemplate.moduleRaw] is not among the
    sources.  The expression it emits evaluates to the loaded export object
    of the module; the module required is logged. *)
Definition webpackRequire (raw : ModuleRaw) (rt : Runtime) : value * Runtime :=
  (moduleExports (rawModule raw), logRequire (rawModule raw) rt).

(** Modelled from the spec: [runtimeTemplate.throwMissingModuleErrorBlock]
    is not among the sources.  The block it emits throws the missing-module
    error for the request it is given. *)
Definition throwMissingModuleErrorBlock {A : Type} (req : string) (rt : Runtime)
    : completion A * Runtime :=
  (Throw (MissingModuleError req), rt).

(** The comma expression [(e1, ..., en)]: every operand is evaluated, left
    to right, and the value is that of the last one. *)
Fixpoint evalSequence (sequence : list ModuleRaw) (current : value) (rt : Runtime)
    : value * Runtime :=
  match sequence with
  | [] => (current, rt)
  | raw :: rest =>
      let '(v, rt') := webpackRequire raw rt in evalSequence rest v rt'
  end.

(** Calling the accessor [() => ((e1, ..., en))]. *)
Definition invokeAccessor (sequence : list ModuleRaw) (rt : Runtime) : value * Runtime :=
  evalSequence sequence VUndefined rt.

(** Calling a getter of [moduleMap].  [p.then(() => accessor)] is
    fulfilled with the accessor, given here by its sequence, when [p] is
    fulfilled, and rejected as [p] is otherwise. *)
Definition runGetter (getter : getterBody) (rt : Runtime)
    : completion (promise (list ModuleRaw)) * Runtime :=
  match getter with
  | ThrowMissingModule req => throwMissingModuleErrorBlock req rt
  | ReturnBlockPromise block sequence =>
      (Return (match blockPromise block with
               | Fulfilled _ => Fulfilled sequence
               | Rejected e => Rejected e
               end), rt)
  end.

(** The emitted [get(module, getScope)]. *)
Definition get (module : string) (getScope : value) (rt : Runtime)
    : completion (promise (list ModuleRaw)) * Runtime :=
  let rt1 := setCurrentRemoteGetScope getScope rt in
  match moduleMap rt1 !! module with
  | Some getter =>
      match runGetter getter rt1 with
      | (Return p, rt2) => (Return p, setCurrentRemoteGetScope VUndefined rt2)
      | (Throw e, rt2) => (Throw e, rt2)
      end
  | None =>
      (Return (Rejected (Error ("Module " +:+ dquote +:+ module +:+ dquote +:+
                                " does not exist in container."))),
       setCurrentRemoteGetScope VUndefined rt1)
  end.

(** The emitted [init(shareScope, initScope)] of a container whose share
    scope is named [scopeName]. *)
Definition init (scopeName : string) (shareScope initScope : value) (rt : Runtime)
    : completion value * Runtime :=
  match shareScopeMap rt with
  | None => (Return VUndefined, rt)
  | Some scopes =>
      let oldScope := default VUndefined (scopes !! scopeName) in
      if truthy oldScope && negb (strictEq oldScope shareScope)
      then (Throw (Error "Container initialization failed as it has already been initialized with a different share scope"), rt)
      else initializeSharing scopeName initScope (setShareScopeMap (<[scopeName := shareScope]> scopes) rt)
  end.

End Glue.

(** *** The module object *)

(** The fields set by the constructor of [ContainerEntryModule]. *)
Record ContainerEntryModule := {
  _name : string;
  _exposes : list (string * ExposeOptions);
  _shareScope : string
}.

(** [libIdent(options)]; [layer] is [this.layer]. *)
Definition libIdent (layer : option string) (m : ContainerEntryModule) : string :=
  (if truthyStr layer then "(" +:+ default "" layer +:+ ")/" else "") +:+
  "webpack/container/entry/" +:+ _name m.

(** The values passed to [write] and returned by [read]. *)
Inductive Serialized :=
  | SString (s : string)
  | SExposes (exposes : list (string * ExposeOptions)).

(** [serialize(context)]: [write] appends to the stream; [written] is what
    [super.serialize(context)] writes after the three fields. *)
Definition serialize (written : list Serialized) (m : ContainerEntryModule)
    (stream : list Serialized) : list Serialized :=
  (stream ++ [SString (_name m); SExposes (_exposes m); SString (_shareScope m)])
  ++ written.

(** [ContainerEntryModule.deserialize(context)]: [read] takes the values
    from the front of the stream, one per constructor argument, left to
    right; what is left is read by [obj.deserialize(context)].  [None]
    stands for a stream that does not hold a string, the exposes and a
    string in front. *)
Definition deserialize (stream : list Serialized)
    : option (ContainerEntryModule * list Serialized) :=
  match stream with
  | SString n :: SExposes e :: SString s :: rest =>
      Some ({| _name := n; _exposes := e; _shareScope := s |}, rest)
  | _ => None
  end.

(** [ContainerEntryModuleFactory.create]: the module made for a
    [ContainerEntryDependency] with the given [name], [exposes] and
    [shareScope]. *)
Definition create (depName : string) (depExposes : list (string * ExposeOptions))
    (depShareScope : string) : ContainerEntryModule :=
  {| _name := depName; _exposes := depExposes; _shareScope := depShareScope |}.

End ContainerEntry.

(** ** Consuming shared modules ([ConsumeSharedPlugin]) *)
Module ConsumeShared.
Import JS.

(** *** The regular expressions of the plugin *)

Definition backslash : ascii := ascii_of_nat 92.

(** The class [[A-Za-z]] *)
Definition isLetter (c : ascii) : bool :=
  let n := nat_of_ascii c in
  (Nat.leb 65 n && Nat.leb n 90) || (Nat.leb 97 n && Nat.leb n 122).

(** The class [[\\/]] *)
Definition isSeparator (c : ascii) : bool :=
  Ascii.eqb c backslash || Ascii.eqb c "/"%char.

(** [(\/|$)] at the start of [s] *)
Definition slashOrEnd (s : string) : bool :=
  match s with
  | "" => true
  | String c _ => Ascii.eqb c "/"%char
  end.

(** [/^(\/|[A-Za-z]:|\\\\)/.test(s)] *)
Definition absolutePattern (s : string) : bool :=
  match s with
  | "" => false
  | String c rest =>
      Ascii.eqb c "/"%char ||
      (isLetter c && match rest with String d _ => Ascii.eqb d ":"%char | "" => false end) ||
      (Ascii.eqb c backslash &&
       match rest with String d _ => Ascii.eqb d backslash | "" => false end)
  end.

(** [/^\.\.?(\/|$)/.test(s)], the first alternative of the pattern in
    [directFallback] *)
Definition relativePattern (s : string) : bool :=
  match s with
  | "" => false
  | String c rest =>
      Ascii.eqb c "."%char &&
      (match rest with
       | String d rest' => (Ascii.eqb d "."%char && slashOrEnd rest') || slashOrEnd rest
       | "" => true
       end)
  end.

(** [/^(\.\.?(\/|$)|\/|[A-Za-z]:|\\\\)/.test(s)] *)
Definition directFallbackPattern (s : string) : bool :=
  relativePattern s || absolutePattern s.

(** The longest prefix of [s] within [[^\\/]], and what follows it. *)
Fixpoint takeSegment (s : string) : string * string :=
  match s with
  | "" => ("", "")
  | String c rest =>
      if isSeparator c then ("", s)
      else let '(segment, after) := takeSegment rest in (String c segment, after)
  end.

(** [[^\\/]+] at the start of [s]: the text matched, if any. *)
Definition segmentPattern (s : string) : option string :=
  match takeSegment s with
  | ("", _) => None
  | (segment, _) => Some segment
  end.

(** [/^((?:@[^\\/]+[\\/])?[^\\/]+)/.exec(s)]: the matched text [match[0]],
    [None] when [exec] returns [null].  The scoped form is tried first;
    when it does not go through, the optional group is left out. *)
Definition packageNamePattern (s : string) : option string :=
  let scoped :=
    match s with
    | "" => None
    | String c rest =>
        if Ascii.eqb c "@"%char then
          match takeSegment rest with
          | ("", _) => None
          | (_, "") => None
          | (scope, String sep rest') =>
              (λ pkg, String c scope +:+ String sep pkg) <$> segmentPattern rest'
          end
        else None
    end in
  match scoped with
  | Some text => Some text
  | None => segmentPattern s
  end.

(** *** Options *)

(** A call that may throw an [Error] with a message. *)
Inductive thrown (A : Type) :=
  | Ok (a : A)
  | Thrown (message : string).
Arguments Ok {A} a.
Arguments Thrown {A} message.

(** The [import] property of a long-hand entry: absent, [false], or a
    request. *)
Inductive ImportSetting :=
  | ImportUnset
  | ImportFalse
  | ImportRequest (req : string).

(** The [requiredVersion] property of a long-hand entry: absent, [false],
    or a version range in text. *)
Inductive VersionSetting :=
  | VersionUnset
  | VersionFalse
  | VersionText (text : string).

(** A long-hand entry of [consumes] ([ConsumesConfig]). *)
Record ConsumesConfig := {
  cfgImport : ImportSetting;
  cfgShareScope : option string;
  cfgShareKey : option string;
  cfgRequiredVersion : VersionSetting;
  cfgStrictVersion : option bool;
  cfgPackageName : option string;
  cfgSingleton : option bool;
  cfgEager : option bool
}.

(** A short-hand entry of [consumes]: a string or an array. *)
Inductive SimpleItem :=
  | ItemString (s : string)
  | ItemArray (items : list string).

(** The kinds of [dependencies[0]] the hooks tell apart. *)
Inductive Dependency :=
  | ConsumeSharedFallbackDependency
  | ProvideForSharedDependency
  | OtherDependency.

(** [WebpackError] with its [file]. *)
Record WebpackError := {
  message : string;
  file : string
}.

(** [new ModuleNotFoundError(null, err, { name })] *)
Record ModuleNotFoundError := {
  err : string;
  locName : string
}.

(** The fields of the compilation the plugin writes, and the log of the
    directories handed to [getDescriptionFile] on its input file system. *)
Record Compilation := {
  warnings : list WebpackError;
  errors : list ModuleNotFoundError;
  contextDependencies : list string;
  fileDependencies : list string;
  missingDependencies : list string;
  descriptionLookups : list string
}.

(** What the resolver passes to its callback, and the dependencies it
    collected in [resolveContext]. *)
Record Resolution := {
  resolveErr : option string;
  resolveResult : option string;
  resolvedContextDependencies : list string;
  resolvedFileDependencies : list string;
  resolvedMissingDependencies : list string
}.

Section Plugin.

(** The semver range type and [parseRange] of [util/semver]. *)
Variable Range : Type.
Variable parseRange : string → Range.

(** [isRequiredVersion] of [sharing/utils]. *)
Variable isRequiredVersion : string → bool.

(** The [requiredVersion] of parsed options: [undefined], [false] or a
    range. *)
Inductive RequiredVersion :=
  | RVUndefined
  | RVFalse
  | RVRange (range : Range).

(** [ConsumeOptions]; [importResolved] is set on the options of a created
    module only. *)
Record ConsumeOptions := {
  import : option string;
  shareScope : string;
  shareKey : string;
  requiredVersion : RequiredVersion;
  packageName : option string;
  strictVersion : bool;
  singleton : bool;
  eager : bool;
  importResolved : option string
}.

(** [new ConsumeSharedModule(context, options)] *)
Record ConsumeSharedModule := {
  context : string;
  options : ConsumeOptions
}.

(** The first mapper passed to [parseOptions] by the constructor:
    short-hand entries.  [optionsShareScope] is [options.shareScope]. *)
Definition consumeSimple (optionsShareScope : option string) (item : SimpleItem)
    (key : string) : thrown ConsumeOptions :=
  match item with
  | ItemArray _ => Thrown "Unexpected array in options"
  | ItemString item =>
      Ok (if String.eqb item key || negb (isRequiredVersion item)
          then {| import := Some key;
                  shareScope := orElse optionsShareScope "default";
                  shareKey := key;
                  requiredVersion := RVUndefined;
                  packageName := None;
                  strictVersion := false;
                  singleton := false;
                  eager := false;
                  importResolved := None |}
          else {| import := Some key;
                  shareScope := orElse optionsShareScope "default";
                  shareKey := key;
                  requiredVersion := RVRange (parseRange item);
                  strictVersion := true;
                  packageName := None;
                  singleton := false;
                  eager := false;
                  importResolved := None |})
  end.

(** [item.import !== false] *)
Definition importEnabled (item : ConsumesConfig) : bool :=
  match cfgImport item with ImportFalse => false | _ => true end.

(** The second mapper: long-hand entries. *)
Definition consumeOptions (optionsShareScope : option string) (item : ConsumesConfig)
    (key : string) : ConsumeOptions :=
  {| import := match cfgImport item with
               | ImportFalse => None
               | ImportRequest req => Some (orElse (Some req) key)
               | ImportUnset => Some key
               end;
     shareScope := orElse (cfgShareScope item) (orElse optionsShareScope "default");
     shareKey := orElse (cfgShareKey item) key;
     requiredVersion := match cfgRequiredVersion item with
                        | VersionText text => RVRange (parseRange text)
                        | VersionFalse => RVFalse
                        | VersionUnset => RVUndefined
                        end;
     strictVersion := match cfgStrictVersion item with
                      | Some b => b
                      | None => importEnabled item && negb (default false (cfgSingleton item))
                      end;
     packageName := cfgPackageName item;
     singleton := default false (cfgSingleton item);
     eager := default false (cfgEager item);
     importResolved := None |}.

(** *** Creating a ConsumeSharedModule *)

(** The parsed content of a description file. *)
Variable DescriptionData : Type.

(** What [getDescriptionFile] passes to its callback: an error, or a
    result whose [data] may be missing. *)
Inductive DescriptionLookup :=
  | DescriptionError (err : string)
  | DescriptionResult (data : option DescriptionData) (path : string).

(** [compiler.context] *)
Variable compilerContext : string.

(** [resolver.resolve({}, context, request, resolveContext, callback)] *)
Variable resolve : string → string → Resolution.

(** [getDescriptionFile(compilation.inputFileSystem, context,
    ["package.json"], callback)] *)
Variable getDescriptionFile : string → DescriptionLookup.

(** [getRequiredVersionFromDescriptionFile(data, packageName)]; [None] when
    the value is not a string. *)
Variable getRequiredVersionFromDescriptionFile : DescriptionData → string → option string.

(** [requiredVersionWarning(details)] inside
    [createConsumeSharedModule(context, request, config)] *)
Definition requiredVersionWarning (request details : string) (c : Compilation)
    : Compilation :=
  {| warnings := warnings c ++
       [{| message := "No required version specified and unable to automatically determine one. " +:+ details;
           file := "shared module " +:+ request |}];
     errors := errors c;
     contextDependencies := contextDependencies c;
     fileDependencies := fileDependencies c;
     missingDependencies := missingDependencies c;
     descriptionLookups := descriptionLookups c |}.

(** [config.import && /^(\.\.?(\/|$)|\/|[A-Za-z]:|\\\\)/.test(config.import)] *)
Definition directFallback (config : ConsumeOptions) : bool :=
  truthyStr (import config) && directFallbackPattern (default "" (import config)).

Definition moduleContext (context : string) (config : ConsumeOptions) : string :=
  if directFallback config then compilerContext else context.

(** The callback given to [resolver.resolve]: the collected dependencies
    are added to the compilation, an error is pushed when resolving
    failed. *)
Definition resolved (request : string) (r : Resolution) (c : Compilation)
    : option string * Compilation :=
  let errs := match resolveErr r with
              | Some e => [{| err := e;
                              locName := "resolving fallback for shared module " +:+ request |}]
              | None => []
              end in
  (match resolveErr r with Some _ => None | None => resolveResult r end,
   {| warnings := warnings c;
      errors := errors c ++ errs;
      contextDependencies := contextDependencies c ++ resolvedContextDependencies r;
      fileDependencies := fileDependencies c ++ resolvedFileDependencies r;
      missingDependencies := missingDependencies c ++ resolvedMissingDependencies r;
      descriptionLookups := descriptionLookups c |}).

(** The first promise of [Promise.all]: resolving the fallback. *)
Definition resolveFallback (context request : string) (config : ConsumeOptions)
    (c : Compilation) : option string * Compilation :=
  if truthyStr (import config)
  then resolved request
         (resolve (moduleContext context config) (default "" (import config))) c
  else (None, c).

Definition logDescriptionLookup (context : string) (c : Compilation) : Compilation :=
  {| warnings := warnings c;
     errors := errors c;
     contextDependencies := contextDependencies c;
     fileDependencies := fileDependencies c;
     missingDependencies := missingDependencies c;
     descriptionLookups := descriptionLookups c ++ [context] |}.

(** The call of [getDescriptionFile] with its callback. *)
Definition lookupRequiredVersion (context request packageName : string)
    (c : Compilation) : RequiredVersion * Compilation :=
  let c := logDescriptionLookup context c in
  match getDescriptionFile context with
  | DescriptionError e =>
      (RVUndefined,
       requiredVersionWarning request ("Unable to read description file: " +:+ e) c)
  | DescriptionResult None descriptionPath =>
      (RVUndefined,
       requiredVersionWarning request
         ("Unable to find description file in " +:+ context +:+ ".") c)
  | DescriptionResult (Some data) descriptionPath =>
      match getRequiredVersionFromDescriptionFile data packageName with
      | None =>
          (RVUndefined,
           requiredVersionWarning request
             ("Unable to find required version for " +:+ dquote +:+ packageName +:+
              dquote +:+ " in description file (" +:+ descriptionPath +:+
              "). It need to be in dependencies, devDependencies or peerDependencies.") c)
      | Some version => (RVRange (parseRange version), c)
      end
  end.

(** The second promise of [Promise.all]: the required version. *)
Definition determineRequiredVersion (context request : string) (config : ConsumeOptions)
    (c : Compilation) : RequiredVersion * Compilation :=
  match requiredVersion config with
  | RVUndefined =>
      match packageName config with
      | Some name => lookupRequiredVersion context request name c
      | None =>
          if absolutePattern request then (RVUndefined, c)
          else match packageNamePattern request with
               | None =>
                   (RVUndefined,
                    requiredVersionWarning request
                      "Unable to extract the package name from request." c)
               | Some name => lookupRequiredVersion context request name c
               end
      end
  | explicit => (explicit, c)
  end.

(** [createConsumeSharedModule(context, request, config)], with the two
    promises run one after the other: they write to different fields. *)
Definition createConsumeSharedModule (context request : string) (config : ConsumeOptions)
    (c : Compilation) : ConsumeSharedModule * Compilation :=
  let '(resolvedImport, c1) := resolveFallback context request config c in
  let '(version, c2) := determineRequiredVersion context request config c1 in
  ({| context := moduleContext context config;
      options :=
        {| import := if truthyStr resolvedImport then import config else None;
           shareScope := shareScope config;
           shareKey := shareKey config;
           requiredVersion := version;
           packageName := packageName config;
           strictVersion := strictVersion config;
           singleton := singleton config;
           eager := eager config;
           importResolved := resolvedImport |} |},
   c2).

(** *** The hooks *)

(** [{ ...options, import: options.import ? options.import + remainder :
    undefined, shareKey: options.shareKey + remainder }] *)
Definition prefixedOptions (options : ConsumeOptions) (remainder : string)
    : ConsumeOptions :=
  {| import := if truthyStr (import options)
               then Some (default "" (import options) +:+ remainder)
               else None;
     shareScope := shareScope options;
     shareKey := shareKey options +:+ remainder;
     requiredVersion := requiredVersion options;
     packageName := packageName options;
     strictVersion := strictVersion options;
     singleton := singleton options;
     eager := eager options;
     importResolved := importResolved options |}.

(** The loop over [prefixedConsumes], a Map read in insertion order. *)
Fixpoint factorizePrefixed (prefixedConsumes : list (string * ConsumeOptions))
    (context request : string) (c : Compilation)
    : option ConsumeSharedModule * Compilation :=
  match prefixedConsumes with
  | [] => (None, c)
  | (prefix, options) :: rest =>
      if startsWith request prefix
      then let remainder := slice request (String.length prefix) in
           let '(m, c') := createConsumeSharedModule context request
                             (prefixedOptions options remainder) c in
           (Some m, c')
      else factorizePrefixed rest context request c
  end.

(** The [factorize] hook, once [resolveMatchedConfigs] has settled. *)
Definition factorize (unresolvedConsumes : gmap string ConsumeOptions)
    (prefixedConsumes : list (string * ConsumeOptions))
    (context request : string) (dependency : Dependency) (c : Compilation)
    : option ConsumeSharedModule * Compilation :=
  match dependency with
  | ConsumeSharedFallbackDependency | ProvideForSharedDependency => (None, c)
  | OtherDependency =>
      match unresolvedConsumes !! request with
      | Some matched =>
          let '(m, c') := createConsumeSharedModule context request matched c in
          (Some m, c')
      | None => factorizePrefixed prefixedConsumes context request c
      end
  end.

(** The [createModule] hook. *)
Definition createModule (resolvedConsumes : gmap string ConsumeOptions)
    (resource context : string) (dependency : Dependency) (c : Compilation)
    : option ConsumeSharedModule * Compilation :=
  match dependency with
  | ConsumeSharedFallbackDependency | ProvideForSharedDependency => (None, c)
  | OtherDependency =>
      match resolvedConsumes !! resource with
      | Some options =>
          let '(m, c') := createConsumeSharedModule context resource options c in
          (Some m, c')
      | None => (None, c)
      end
  end.

(** *** Vocabulary of the specification *)

(** The package name the automatic determination works with: the
    [packageName] option, or else the name read off a request that is not
    matched by the absolute-path pattern. *)
Definition inferredPackageName (request : string) (config : ConsumeOptions)
    : option string :=
  match packageName config with
  | Some name => Some name
  | None => if absolutePattern request then None else packageNamePattern request
  end.

(** The steps at which the automatic determination of the required version
    fails, each with the details it reports. *)
Inductive inferenceFails (context request : string) (config : ConsumeOptions)
    : string → Prop :=
  | NameNotExtractable :
      packageName config = None →
      absolutePattern request = false →
      packageNamePattern request = None →
      inferenceFails context request config
        "Unable to extract the package name from request."
  | DescriptionUnreadable (name e : string) :
      inferredPackageName request config = Some name →
      getDescriptionFile context = DescriptionError e →
      inferenceFails context request config
        ("Unable to read description file: " +:+ e)
  | DescriptionAbsent (name path : string) :
      inferredPackageName request config = Some name →
      getDescriptionFile context = DescriptionResult None path →
      inferenceFails context request config
        ("Unable to find description file in " +:+ context +:+ ".")
  | PackageNotListed (name path : string) (data : DescriptionData) :
      inferredPackageName request config = Some name →
      getDescriptionFile context = DescriptionResult (Some data) path →
      getRequiredVersionFromDescriptionFile data name = None →
      inferenceFails context request config
        ("Unable to find required version for " +:+ dquote +:+ name +:+
         dquote +:+ " in description file (" +:+ path +:+
         "). It need to be in dependencies, devDependencies or peerDependencies.").

End Plugin.

Arguments RVUndefined {Range}.
Arguments RVFalse {Range}.
Arguments RVRange {Range} range.
Arguments import {Range} c.
Arguments shareScope {Range} c.
Arguments shareKey {Range} c.
Arguments requiredVersion {Range} c.
Arguments packageName {Range} c.
Arguments strictVersion {Range} c.
Arguments singleton {Range} c.
Arguments eager {Range} c.
Arguments importResolved {Range} c.
Arguments context {Range} c.
Arguments options {Range} c.
Arguments DescriptionError {DescriptionData} err.
Arguments DescriptionResult {DescriptionData} data path.
Arguments consumeSimple {Range} parseRange isRequiredVersion optionsShareScope item key.
Arguments consumeOptions {Range} parseRange optionsShareScope item key.
Arguments directFallback {Range} config.
Arguments moduleContext {Range} compilerContext context config.
Arguments resolveFallback {Range} compilerContext resolve context request config c.
Arguments lookupRequiredVersion {Range} parseRange {DescriptionData}
  getDescriptionFile getRequiredVersionFromDescriptionFile context request packageName c.
Arguments determineRequiredVersion {Range} parseRange {DescriptionData}
  getDescriptionFile getRequiredVersionFromDescriptionFile context request config c.
Arguments createConsumeSharedModule {Range} parseRange {DescriptionData}
  compilerContext resolve getDescriptionFile getRequiredVersionFromDescriptionFile
  context request config c.
Arguments prefixedOptions {Range} options remainder.
Arguments factorizePrefixed {Range} parseRange {DescriptionData}
  compilerContext resolve getDescriptionFile getRequiredVersionFromDescriptionFile
  prefixedConsumes context request c.
Arguments factorize {Range} parseRange {DescriptionData}
  compilerContext resolve getDescriptionFile getRequiredVersionFromDescriptionFile
  unresolvedConsumes prefixedConsumes context request dependency c.
Arguments createModule {Range} parseRange {DescriptionData}
  compilerContext resolve getDescriptionFile getRequiredVersionFromDescriptionFile
  resolvedConsumes resource context dependency c.
Arguments inferredPackageName {Range} request config.
Arguments inferenceFails {Range} {DescriptionData}
  getDescriptionFile getRequiredVersionFromDescriptionFile context request config _.

End ConsumeShared.

(** ** The federation plugin ([ModuleFederationPlugin]) and the container
    plugin it applies ([ContainerPlugin]) *)
Module ModuleFederation.
Import JS.

(** A [library] option: its [type] and its [name]. *)
Record Library := {
  libraryType : string;
  libraryName : option string
}.

(** An option given as an array or as an object; [None] below stands for an
    option that is absent. *)
Inductive Collection (A : Type) :=
  | ArrayOf (items : list A)
  | ObjectOf (entries : list (string * A)).
Arguments ArrayOf {A} items.
Arguments ObjectOf {A} entries.

(** [Array.isArray(c) ? c.length > 0 : Object.keys(c).length > 0] *)
Definition nonEmpty {A : Type} (c : Collection A) : bool :=
  match c with
  | ArrayOf items => negb (Nat.eqb (length items) 0)
  | ObjectOf entries => negb (Nat.eqb (length entries) 0)
  end.

Section Plugins.

(** The entries of [exposes], [remotes] and [shared], which the federation
    plugin hands on as they are. *)
Variables Exposed Remote Shared : Type.

(** [ModuleFederationPluginOptions] *)
Record Options := {
  name : option string;
  library : option Library;
  remoteType : option string;
  filename : option string;
  runtime : option string;
  shareScope : option string;
  exposes : option (Collection Exposed);
  remotes : option (Collection Remote);
  shared : option (Collection Shared)
}.

(** [isValidExternalsType], the check generated from the schema. *)
Variable isValidExternalsType : string → bool.

(** [options.library || { type: "var", name: options.name }] *)
Definition libraryOf (options : Options) : Library :=
  match library options with
  | Some l => l
  | None => {| libraryType := "var"; libraryName := name options |}
  end.

(** [options.remoteType || (options.library &&
    isValidExternalsType(options.library.type) ? options.library.type :
    "script")] *)
Definition remoteTypeOf (options : Options) : string :=
  orElse (remoteType options)
    (match library options with
     | Some l => if isValidExternalsType (libraryType l) then libraryType l else "script"
     | None => "script"
     end).

(** The update of [compiler.options.output.enabledLibraryTypes] by
    [ModuleFederationPlugin.apply]: the type is pushed unless the array
    includes it. *)
Definition enableLibraryType (enabledLibraryTypes : list string) (options : Options)
    : list string :=
  if bool_decide (libraryType (libraryOf options) ∈ enabledLibraryTypes)
  then enabledLibraryTypes
  else enabledLibraryTypes ++ [libraryType (libraryOf options)].

(** The options of [new ContainerPlugin(...)]. *)
Record ContainerPluginOptions := {
  cpName : option string;
  cpLibrary : option Library;
  cpFilename : option string;
  cpRuntime : option string;
  cpShareScope : option string;
  cpExposes : Collection Exposed
}.

(** The plugins created and applied in the [afterPlugins] hook. *)
Inductive Applied :=
  | ContainerPluginApplied (options : ContainerPluginOptions)
  | ContainerReferencePluginApplied (remoteType : string) (shareScope : option string)
      (remotes : Collection Remote)
  | SharePluginApplied (shared : Collection Shared) (shareScope : option string).

(** The [afterPlugins] hook: the plugins it applies, in order. *)
Definition afterPlugins (options : Options) : list Applied :=
  (match exposes options with
   | Some e =>
       if nonEmpty e
       then [ContainerPluginApplied
               {| cpName := name options;
                  cpLibrary := Some (libraryOf options);
                  cpFilename := filename options;
                  cpRuntime := runtime options;
                  cpShareScope := shareScope options;
                  cpExposes := e |}]
       else []
   | None => []
   end) ++
  (match remotes options with
   | Some r =>
       if nonEmpty r
       then [ContainerReferencePluginApplied (remoteTypeOf options) (shareScope options) r]
       else []
   | None => []
   end) ++
  (match shared options with
   | Some s => [SharePluginApplied s (shareScope options)]
   | None => []
   end).

(** The [_options] of a [ContainerPlugin], as its constructor sets them
    (the exposes are kept as given here; their parsing is
    [ContainerEntry.exposeSimple] and [ContainerEntry.exposeConfig]). *)
Record ContainerPluginState := {
  stName : option string;
  stShareScope : string;
  stLibrary : Library;
  stRuntime : option string;
  stFilename : option string
}.

Definition containerPlugin (options : ContainerPluginOptions) : ContainerPluginState :=
  {| stName := cpName options;
     stShareScope := orElse (cpShareScope options) "default";
     stLibrary := match cpLibrary options with
                  | Some l => l
                  | None => {| libraryType := "var"; libraryName := cpName options |}
                  end;
     stRuntime := cpRuntime options;
     stFilename := if truthyStr (cpFilename options) then cpFilename options else None |}.

(** The update of [enabledLibraryTypes] by [ContainerPlugin.apply]: the
    type is pushed. *)
Definition containerEnableLibraryType (enabledLibraryTypes : list string)
    (st : ContainerPluginState) : list string :=
  enabledLibraryTypes ++ [libraryType (stLibrary st)].

(** [enabledLibraryTypes] after [ModuleFederationPlugin.apply] and, in the
    [afterPlugins] hook, the [apply] of the container plugin, which is the
    first plugin the hook applies when it applies one. *)
Definition enabledAfterContainerPlugin (enabledLibraryTypes : list string)
    (options : Options) : list string :=
  match afterPlugins options with
  | ContainerPluginApplied o :: _ =>
      containerEnableLibraryType (enableLibraryType enabledLibraryTypes options)
        (containerPlugin o)
  | _ => enableLibraryType enabledLibraryTypes options
  end.

End Plugins.

Arguments name {Exposed Remote Shared} o.
Arguments library {Exposed Remote Shared} o.
Arguments remoteType {Exposed Remote Shared} o.
Arguments filename {Exposed Remote Shared} o.
Arguments runtime {Exposed Remote Shared} o.
Arguments shareScope {Exposed Remote Shared} o.
Arguments exposes {Exposed Remote Shared} o.
Arguments remotes {Exposed Remote Shared} o.
Arguments shared {Exposed Remote Shared} o.
Arguments libraryOf {Exposed Remote Shared} options.
Arguments remoteTypeOf {Exposed Remote Shared} isValidExternalsType options.
Arguments enableLibraryType {Exposed Remote Shared} enabledLibraryTypes options.
Arguments cpName {Exposed} c.
Arguments cpLibrary {Exposed} c.
Arguments cpFilename {Exposed} c.
Arguments cpRuntime {Exposed} c.
Arguments cpShareScope {Exposed} c.
Arguments cpExposes {Exposed} c.
Arguments ContainerPluginApplied {Exposed Remote Shared} options.
Arguments ContainerReferencePluginApplied {Exposed Remote Shared} remoteType shareScope remotes.
Arguments SharePluginApplied {Exposed Remote Shared} shared shareScope.
Arguments afterPlugins {Exposed Remote Shared} isValidExternalsType options.
Arguments containerPlugin {Exposed} options.
Arguments enabledAfterContainerPlugin {Exposed Remote Shared} isValidExternalsType
  enabledLibraryTypes options.

End ModuleFederation.

(** ** Sample environments

    Concrete collaborators and configurations on which the statements below
    are exercised. *)
Module Samples.
Import JS.

(** A runtime whose [initializeSharing] does nothing. *)
Definition idleSharing (scopeName : string) (initScope : ContainerEntry.value)
    (rt : ContainerEntry.Runtime)
    : ContainerEntry.completion ContainerEntry.value * ContainerEntry.Runtime :=
  (ContainerEntry.Return ContainerEntry.VUndefined, rt).

(** A page on which neither sharing nor any exposed module is installed. *)
Definition bareRuntime : ContainerEntry.Runtime :=
  {| ContainerEntry.shareScopeMap := None;
     ContainerEntry.currentRemoteGetScope := ContainerEntry.VUndefined;
     ContainerEntry.moduleMap := ∅;
     ContainerEntry.requireLog := [] |}.

(** Every block loads. *)
Definition allLoaded (block : ContainerEntry.AsyncDependenciesBlock)
    : ContainerEntry.promise unit :=
  ContainerEntry.Fulfilled ().

(** A module graph in which [./a] is module 1, [./b] is module 2 and
    nothing else resolves. *)
Definition twoModules (dep : ContainerEntry.ContainerExposedDependency)
    : option ContainerEntry.Module :=
  if String.eqb (ContainerEntry.userRequest dep) "./a" then Some 1
  else if String.eqb (ContainerEntry.userRequest dep) "./b" then Some 2
  else None.

(** The exports of module [m] are the object numbered [m]. *)
Definition exportsOf (m : ContainerEntry.Module) : ContainerEntry.value :=
  ContainerEntry.VObject m.

(** An exposed entry with two import targets. *)
Definition button : ContainerEntry.ExposeOptions :=
  {| ContainerEntry.import := ["./a"; "./b"]; ContainerEntry.name := None |}.

(** Ranges kept as their text. *)
Definition rangeText (text : string) : string := text.

(** Every short-hand item reads as a version. *)
Definition anyVersion (item : string) : bool := true.

(** A resolver that finds every request below its context. *)
Definition findsAll (context request : string) : ConsumeShared.Resolution :=
  {| ConsumeShared.resolveErr := None;
     ConsumeShared.resolveResult := Some (context +:+ "/" +:+ request);
     ConsumeShared.resolvedContextDependencies := [];
     ConsumeShared.resolvedFileDependencies := [];
     ConsumeShared.resolvedMissingDependencies := [] |}.

(** A description file, reduced to its list of dependencies. *)
Definition listedIn (data : list (string * string)) (name : string) : option string :=
  (λ found, found.2.2) <$> list_find (λ d, d.1 = name) data.

(** A project whose [package.json] lists [react] only. *)
Definition reactProject (context : string)
    : ConsumeShared.DescriptionLookup (list (string * string)) :=
  ConsumeShared.DescriptionResult (Some [("react", "^18.2.0")]) "/app/package.json".

(** A compilation on which nothing was reported yet. *)
Definition fresh : ConsumeShared.Compilation :=
  {| ConsumeShared.warnings := [];
     ConsumeShared.errors := [];
     ConsumeShared.contextDependencies := [];
     ConsumeShared.fileDependencies := [];
     ConsumeShared.missingDependencies := [];
     ConsumeShared.descriptionLookups := [] |}.

(** Options of a shared prefix with the given share key, no fallback and
    version checks switched off. *)
Definition prefixOptions (key : string) : ConsumeShared.ConsumeOptions string :=
  {| ConsumeShared.import := None;
     ConsumeShared.shareScope := "default";
     ConsumeShared.shareKey := key;
     ConsumeShared.requiredVersion := ConsumeShared.RVFalse;
     ConsumeShared.packageName := None;
     ConsumeShared.strictVersion := false;
     ConsumeShared.singleton := false;
     ConsumeShared.eager := false;
     ConsumeShared.importResolved := None |}.

(** Options of a shared module whose version is to be determined
    automatically. *)
Definition autoVersion (key : string) : ConsumeShared.ConsumeOptions string :=
  {| ConsumeShared.import := Some key;
     ConsumeShared.shareScope := "default";
     ConsumeShared.shareKey := key;
     ConsumeShared.requiredVersion := ConsumeShared.RVUndefined;
     ConsumeShared.packageName := None;
     ConsumeShared.strictVersion := false;
     ConsumeShared.singleton := false;
     ConsumeShared.eager := false;
     ConsumeShared.importResolved := None |}.

(** A resolver that finds nothing. *)
Definition findsNothing (context request : string) : ConsumeShared.Resolution :=
  {| ConsumeShared.resolveErr := Some ("Can't resolve " +:+ request);
     ConsumeShared.resolveResult := None;
     ConsumeShared.resolvedContextDependencies := [];
     ConsumeShared.resolvedFileDependencies := [];
     ConsumeShared.resolvedMissingDependencies := [context +:+ "/" +:+ request] |}.

(** Options of a shared module that requires the given range. *)
Definition withVersion (key range : string) : ConsumeShared.ConsumeOptions string :=
  {| ConsumeShared.import := Some key;
     ConsumeShared.shareScope := "default";
     ConsumeShared.shareKey := key;
     ConsumeShared.requiredVersion := ConsumeShared.RVRange range;
     ConsumeShared.packageName := None;
     ConsumeShared.strictVersion := true;
     ConsumeShared.singleton := false;
     ConsumeShared.eager := false;
     ConsumeShared.importResolved := None |}.

End Samples.

(** ** Facts about the string helpers *)
Module JSFacts.
Import JS.

Lemma startsWith_app (p rest : string) : startsWith (p +:+ rest) p = true.
Proof.
  induction p as [|c p IH]; simpl; [done|].
  by rewrite Ascii.eqb_refl.
Qed.

Lemma startsWith_inv (s p : string) :
  startsWith s p = true → ∃ rest, s = p +:+ rest.
Proof.
  revert s. induction p as [|c p IH]; intros s H; simpl in *.
  - by exists s.
  - destruct s as [|d s]; [done|].
    destruct (Ascii.eqb c d) eqn:E; [|done].
    apply Ascii.eqb_eq in E as ->.
    destruct (IH _ H) as [rest ->]. by exists rest.
Qed.

Lemma startsWith_spec (s p : string) :
  startsWith s p = true ↔ ∃ rest, s = p +:+ rest.
Proof.
  split; [apply startsWith_inv|].
  intros [rest ->]. apply startsWith_app.
Qed.

Lemma slice_app (p rest : string) : slice (p +:+ rest) (String.length p) = rest.
Proof. induction p as [|c p IH]; simpl; done. Qed.

Lemma length_app (a b : string) :
  String.length (a +:+ b) = String.length a + String.length b.
Proof. induction a as [|c a IH]; simpl; [done|]. by rewrite IH. Qed.

Lemma charCodeAt_app (p rest : string) :
  charCodeAt (p +:+ rest) (String.length p) = charCodeAt rest 0.
Proof. induction p as [|c p IH]; simpl; [by destruct rest|done]. Qed.

Lemma nat_of_ascii_inj (c d : ascii) : nat_of_ascii c = nat_of_ascii d → c = d.
Proof.
  intros H. rewrite <- (ascii_nat_embedding c), <- (ascii_nat_embedding d).
  by rewrite H.
Qed.

Lemma app_empty_r (s : string) : s +:+ "" = s.
Proof.
  induction s as [|c s IH]; [done|].
  change (String c (s +:+ "") = String c s). by rewrite IH.
Qed.

End JSFacts.

(** ** Properties of the remote-reference plugin *)
Module ContainerReferenceFacts.
Import JS JSFacts ContainerReference.

Lemma remoteMatches_belongsTo (req key : string) :
  remoteMatches req key = true ↔ belongsTo req key.
Proof.
  unfold remoteMatches, belongsTo. split.
  - intros [Hpre Hnext]%andb_true_iff.
    apply startsWith_inv in Hpre as [rest ->]. exists rest. split; [done|].
    apply orb_true_iff in Hnext as [Hlen | Hcode].
    + left. apply Nat.eqb_eq in Hlen. rewrite length_app in Hlen.
      destruct rest; [done | simpl in Hlen; lia].
    + right. apply bool_decide_eq_true in Hcode.
      rewrite charCodeAt_app in Hcode.
      destruct rest as [|c tail]; simpl in Hcode; [done|].
      exists tail. f_equal. apply nat_of_ascii_inj. by simplify_eq.
  - intros (rest & -> & Hrest). rewrite startsWith_app. simpl.
    apply orb_true_iff. destruct Hrest as [-> | (tail & ->)].
    + left. apply Nat.eqb_eq. rewrite length_app. simpl. lia.
    + right. apply bool_decide_eq_true. by rewrite charCodeAt_app.
Qed.

Lemma remoteMatches_false (req key : string) :
  remoteMatches req key = false ↔ ¬ belongsTo req key.
Proof.
  rewrite <- remoteMatches_belongsTo. by destruct (remoteMatches req key).
Qed.

(** [findRemote] returns the module of the first entry whose key matches. *)
Lemma findRemote_first (remotes : list (string * RemoteConfig)) (req : string)
    (m : RemoteModule) :
  findRemote remotes req = Some m ↔
  ∃ pre key config post,
    remotes = pre ++ (key, config) :: post ∧
    Forall (λ kc, ¬ belongsTo req kc.1) pre ∧
    belongsTo req key ∧
    m = remoteModuleFor req key config.
Proof.
  induction remotes as [|[k c] remotes IH]; simpl.
  - split; [done|]. intros (pre & ? & ? & ? & E & _). by destruct pre.
  - destruct (remoteMatches req k) eqn:Hk.
    + split.
      * intros [= <-]. exists [], k, c, remotes.
        repeat split; [constructor | by apply remoteMatches_belongsTo].
      * intros (pre & key & config & post & E & Hpre & Hkey & ->).
        destruct pre as [|[k' c'] pre]; simplify_eq/=; [done|].
        apply Forall_cons in Hpre as [Hno _]. simpl in Hno.
        by apply remoteMatches_belongsTo in Hk.
    + rewrite IH. apply remoteMatches_false in Hk. split.
      * intros (pre & key & config & post & -> & Hpre & Hkey & ->).
        exists ((k, c) :: pre), key, config, post.
        repeat split; [by constructor | done].
      * intros (pre & key & config & post & E & Hpre & Hkey & ->).
        destruct pre as [|[k' c'] pre]; simplify_eq/=; [done|].
        apply Forall_cons in Hpre as [_ Hpre].
        by exists pre, key, config, post.
Qed.

Lemma app1_extra_not_app1 : ¬ belongsTo "app1-extra" "app1".
Proof. apply remoteMatches_false. reflexivity. Qed.

(** C4 (as amended).  A request without [!] yields the RemoteModule of
    remote [key] exactly when [key] is the first configured remote, in
    configuration order, such that the request starts with [key] and is
    either no longer than [key] or continues with [/]; a request containing
    [!] yields none; and remotes keyed [app1] never take part in the answer
    for request [app1-extra]. *)
Theorem factorize_first_matching_remote :
  (∀ remotes req m,
     includes req "!" = false →
     (factorize remotes req = Some m ↔
      ∃ pre key config post,
        remotes = pre ++ (key, config) :: post ∧
        Forall (λ kc, ¬ belongsTo req kc.1) pre ∧
        belongsTo req key ∧
        m = remoteModuleFor req key config)) ∧
  (∀ remotes req, includes req "!" = true → factorize remotes req = None) ∧
  (∀ remotes,
     factorize remotes "app1-extra" =
     factorize (filter (λ kc, kc.1 ≠ "app1") remotes) "app1-extra").
Proof.
  split; [|split].
  - intros remotes req m Hbang. unfold factorize. rewrite Hbang.
    apply findRemote_first.
  - intros remotes req Hbang. unfold factorize. by rewrite Hbang.
  - intros remotes. unfold factorize. simpl.
    induction remotes as [|[k c] remotes IH]; [done|].
    rewrite filter_cons. simpl. case_decide as Hk.
    + simpl. by rewrite IH.
    + subst k. simpl. apply IH.
Qed.

(** Witness for [factorize_first_matching_remote]: request [app1/routes]
    against the single remote [app1]. *)
Lemma factorize_first_matching_remote_witness :
  let config := {| external := ["app1@http://localhost:3001/remoteEntry.js"];
                   shareScope := "default" |} in
  factorize [("app1", config)] "app1/routes" =
  Some {| request := "app1/routes";
          externalRequests := ["webpack/container/reference/app1"];
          internalRequest := "./routes";
          moduleShareScope := "default" |}.
Proof.
  intros config.
  apply (proj1 factorize_first_matching_remote [("app1", config)] "app1/routes");
    [reflexivity|].
  exists [], "app1", config, [].
  split; [reflexivity|]. split; [constructor|]. split; [|reflexivity].
  exists "/routes". split; [reflexivity|]. right. by exists "routes".
Defined.

(** C4 (as stated) fails: with remotes [app1] and [app1/sub] configured in
    that order, request [app1/sub/x] satisfies the rule for key [app1/sub],
    yet the module produced is the one of remote [app1]. *)
Lemma factorize_overlapping_keys :
  let c1 := {| external := ["one@http://one/remoteEntry.js"]; shareScope := "default" |} in
  let c2 := {| external := ["two@http://two/remoteEntry.js"]; shareScope := "default" |} in
  let remotes := [("app1", c1); ("app1/sub", c2)] in
  includes "app1/sub/x" "!" = false ∧
  belongsTo "app1/sub/x" "app1/sub" ∧
  factorize remotes "app1/sub/x" = Some (remoteModuleFor "app1/sub/x" "app1" c1) ∧
  factorize remotes "app1/sub/x" ≠ Some (remoteModuleFor "app1/sub/x" "app1/sub" c2).
Proof.
  repeat split.
  - exists "/x". split; [reflexivity|]. right. by exists "x".
  - discriminate.
Qed.

Lemma referenceName_shape (key : string) (i : nat) :
  hasReferenceShape (referenceName key i) key i.
Proof.
  unfold hasReferenceShape, referenceName. destruct i as [|i].
  - left. by rewrite app_empty_r.
  - right. done.
Qed.

Lemma referenceName_inj (key : string) (i j : nat) :
  referenceName key i = referenceName key j → i = j.
Proof.
  unfold referenceName. intros H.
  apply (inj (String.app _)) in H. apply (inj (String.app _)) in H.
  destruct i as [|i], j as [|j]; try done.
  apply (inj (String.app _)) in H. by apply (inj pretty) in H.
Qed.

(** Registration from counter [i] on never touches a name numbered below [i]. *)
Lemma registerExternals_below (key : string) (targets : list string) :
  ∀ (i : nat) (acc : gmap string string) (j : nat),
    j < i →
    registerExternals key targets i acc !! referenceName key j =
    acc !! referenceName key j.
Proof.
  induction targets as [|t targets IH]; intros i acc j Hj; simpl; [done|].
  destruct (isInternal t); [by apply IH|].
  rewrite IH by lia. apply lookup_insert_ne.
  intros E%referenceName_inj. lia.
Qed.

(** Within one remote, the targets that are not internal are numbered
    consecutively from the starting counter. *)
Lemma registerExternals_numbering (key : string) (targets : list string) :
  ∀ (i : nat) (acc : gmap string string) (j : nat) (target : string),
    filter (λ t, isInternal t = false) targets !! j = Some target →
    registerExternals key targets i acc !! referenceName key (i + j) = Some target.
Proof.
  induction targets as [|t targets IH]; intros i acc j target Hj; simpl; [done|].
  destruct (isInternal t) eqn:Ht.
  - rewrite filter_cons_False in Hj by (by rewrite Ht). by apply IH.
  - rewrite filter_cons_True in Hj by done.
    destruct j as [|j]; simpl in Hj.
    + injection Hj as ->. rewrite Nat.add_0_r.
      rewrite registerExternals_below by lia. apply lookup_insert_eq.
    + replace (i + S j) with (S i + j) by lia. by apply IH.
Qed.

(** What every entry of a table built by [registerExternals] looks like. *)
Lemma registerExternals_entries (key : string) (targets : list string) :
  ∀ (i : nat) (acc : gmap string string) (name target : string),
    registerExternals key targets i acc !! name = Some target →
    acc !! name = Some target ∨
    (isInternal target = false ∧ target ∈ targets ∧
     ∃ j, hasReferenceShape name key j).
Proof.
  induction targets as [|t targets IH]; intros i acc name target H; simpl in *;
    [by left|].
  destruct (isInternal t) eqn:Ht.
  - apply IH in H as [H | (? & ? & ?)]; [by left|].
    right. split; [done|]. split; [by apply list_elem_of_further | done].
  - apply IH in H as [H | (? & ? & ?)].
    + destruct (decide (referenceName key i = name)) as [<- | Hne].
      * rewrite lookup_insert_eq in H. injection H as <-.
        right. split; [done|]. split; [apply list_elem_of_here|].
        exists i. apply referenceName_shape.
      * rewrite lookup_insert_ne in H by done. by left.
    + right. split; [done|]. split; [by apply list_elem_of_further | done].
Qed.

Lemma registerRemotes_entries (remotes : list (string * RemoteConfig)) :
  ∀ (acc : gmap string string) (name target : string),
    registerRemotes remotes acc !! name = Some target →
    acc !! name = Some target ∨
    (isInternal target = false ∧
     ∃ key config j, (key, config) ∈ remotes ∧ target ∈ external config ∧
                     hasReferenceShape name key j).
Proof.
  induction remotes as [|[k c] remotes IH]; intros acc name target H; simpl in *;
    [by left|].
  apply IH in H as [H | (? & key & config & j & Hin & ? & ?)].
  - apply registerExternals_entries in H as [H | (? & ? & j & ?)]; [by left|].
    right. split; [done|]. exists k, c, j.
    split; [apply list_elem_of_here | done].
  - right. split; [done|]. exists key, config, j.
    split; [by apply list_elem_of_further | done].
Qed.

Lemma remoteRequests_lookup (key : string) (config : RemoteConfig) (i : nat)
    (target : string) :
  external config !! i = Some target →
  remoteRequests key config !! i =
  Some (if isInternal target then slice target 9 else referenceName key i).
Proof.
  intros H. unfold remoteRequests. rewrite list_lookup_imap. by rewrite H.
Qed.



(** C10 fails on the code.  For a remote whose first target is internal,
    registration numbers the script location 0 while the RemoteModule asks
    for number 1: the name it requests is absent from the table. *)
Theorem fallback_numbering_disagrees :
  let config := {| external := ["internal ./local"; "app1@http://localhost:3001/remoteEntry.js"];
                   shareScope := "default" |} in
  let remotes := [("app1", config)] in
  factorize remotes "app1/Button" =
    Some {| request := "app1/Button";
            externalRequests := ["./local"; "webpack/container/reference/app1/fallback-1"];
            internalRequest := "./Button";
            moduleShareScope := "default" |} ∧
  remoteExternals remotes =
    {[ "webpack/container/reference/app1" := "app1@http://localhost:3001/remoteEntry.js" ]} ∧
  remoteExternals remotes !! "webpack/container/reference/app1/fallback-1" = None.
Proof. repeat split. Qed.

(** The two numberings do agree for a remote without internal targets:
    every name its RemoteModule requests is registered, with the target of
    the same position. *)
Lemma numbering_agrees_without_internal (key : string) (config : RemoteConfig)
    (acc : gmap string string) (i : nat) (target : string) :
  Forall (λ t, isInternal t = false) (external config) →
  external config !! i = Some target →
  ∃ name, remoteRequests key config !! i = Some name ∧
          registerExternals key (external config) 0 acc !! name = Some target.
Proof.
  intros Hall Hi. exists (referenceName key i). split.
  - rewrite (remoteRequests_lookup _ _ _ _ Hi).
    rewrite Forall_lookup in Hall. by rewrite (Hall _ _ Hi).
  - apply (registerExternals_numbering key (external config) 0 acc i).
    replace (filter (λ t, isInternal t = false) (external config))
      with (external config); [done|].
    clear Hi. induction Hall as [|t ts Ht _ IH]; [done|].
    rewrite filter_cons_True by done. by rewrite <- IH.
Qed.

End ContainerReferenceFacts.

(** ** Further properties of the remote-reference plugin *)
Module ContainerReferenceExtras.
Import JS JSFacts ContainerReference ContainerReferenceFacts.

Lemma orElse_nonempty (o : option string) (d : string) : d ≠ "" → orElse o d ≠ "".
Proof.
  intros Hd. unfold orElse. destruct o as [s|]; [|done].
  destruct (String.eqb s "") eqn:E; [done|]. by apply String.eqb_neq in E.
Qed.

(** The share scope of a parsed remote is never the empty string, whatever
    [shareScope] values are given, and a remote given as one location has
    exactly that one target. *)
Theorem parsed_remote_has_share_scope :
  (∀ optionsShareScope item,
     shareScope (remoteSimple optionsShareScope item) ≠ "") ∧
  (∀ optionsShareScope itemExternal itemShareScope,
     shareScope (remoteConfig optionsShareScope itemExternal itemShareScope) ≠ "") ∧
  (∀ optionsShareScope itemShareScope location,
     external (remoteSimple optionsShareScope (RemoteLocation location)) = [location] ∧
     external (remoteConfig optionsShareScope (RemoteLocation location) itemShareScope)
       = [location]).
Proof.
  split; [|split].
  - intros. by apply orElse_nonempty.
  - intros. apply orElse_nonempty. by apply orElse_nonempty.
  - done.
Qed.

(** A module produced by [factorize] carries the request unchanged, the
    share scope of the remote it was matched to, one request per target of
    that remote, and an internal request that is [.] for the key itself and
    [./...] for anything below it. *)
Theorem factorize_module_parts (remotes : list (string * RemoteConfig))
    (req : string) (m : RemoteModule) :
  factorize remotes req = Some m →
  ∃ key config rest,
    (key, config) ∈ remotes ∧
    req = key +:+ rest ∧
    request m = req ∧
    internalRequest m = "." +:+ rest ∧
    (internalRequest m = "." ∨ ∃ tail, internalRequest m = "./" +:+ tail) ∧
    length (externalRequests m) = length (external config) ∧
    moduleShareScope m = shareScope config.
Proof.
  unfold factorize. destruct (includes req "!"); [done|].
  intros (pre & key & config & post & -> & _ & (rest & -> & Hrest) & ->)%findRemote_first.
  exists key, config, rest. simpl. rewrite slice_app.
  split; [apply elem_of_app; right; apply list_elem_of_here|].
  repeat split; try done.
  - destruct Hrest as [-> | [tail ->]]; [by left | right; by exists tail].
  - unfold remoteRequests. by rewrite length_imap.
Qed.

(** Witness for [factorize_module_parts]. *)
Lemma factorize_module_parts_witness :
  let config := {| external := ["app1@http://localhost:3001/remoteEntry.js"];
                   shareScope := "default" |} in
  ∃ key cfg rest,
    (key, cfg) ∈ [("app1", config)] ∧
    "app1/routes" = key +:+ rest ∧
    request (remoteModuleFor "app1/routes" "app1" config) = "app1/routes" ∧
    internalRequest (remoteModuleFor "app1/routes" "app1" config) = "." +:+ rest ∧
    (internalRequest (remoteModuleFor "app1/routes" "app1" config) = "." ∨
     ∃ tail, internalRequest (remoteModuleFor "app1/routes" "app1" config) = "./" +:+ tail) ∧
    length (externalRequests (remoteModuleFor "app1/routes" "app1" config))
      = length (external cfg) ∧
    moduleShareScope (remoteModuleFor "app1/routes" "app1" config) = shareScope cfg.
Proof.
  intros config.
  apply (factorize_module_parts [("app1", config)] "app1/routes"). reflexivity.
Defined.

Lemma findRemote_none (remotes : list (string * RemoteConfig)) (req : string) :
  findRemote remotes req = None ↔ Forall (λ kc, ¬ belongsTo req kc.1) remotes.
Proof.
  induction remotes as [|[k c] remotes IH]; simpl; [by split; [constructor|]|].
  destruct (remoteMatches req k) eqn:Hk.
  - split; [done|]. intros [Hno _]%Forall_cons. simpl in Hno.
    by apply remoteMatches_belongsTo in Hk.
  - rewrite IH. apply remoteMatches_false in Hk. split.
    + intros H. by constructor.
    + by intros [_ H]%Forall_cons.
Qed.

(** [factorize] leaves a request to the normal module factory exactly when
    the request contains [!] or belongs to none of the configured remotes. *)
Theorem factorize_declines_iff (remotes : list (string * RemoteConfig)) (req : string) :
  factorize remotes req = None ↔
  includes req "!" = true ∨ Forall (λ kc, ¬ belongsTo req kc.1) remotes.
Proof.
  unfold factorize. destruct (includes req "!") eqn:Hbang.
  - split; [by left | done].
  - rewrite findRemote_none. split; [by right | by intros [? | ?]].
Qed.

(** The table one remote leaves behind, read at its own reference names:
    the name numbered [j] holds the [j]-th target that is not internal, and
    what was there before when there is no such target. *)
Lemma registerExternals_at (key : string) (targets : list string) :
  ∀ (i : nat) (acc : gmap string string) (j : nat),
    registerExternals key targets i acc !! referenceName key (i + j) =
    match filter (λ t, isInternal t = false) targets !! j with
    | Some target => Some target
    | None => acc !! referenceName key (i + j)
    end.
Proof.
  induction targets as [|t targets IH]; intros i acc j; simpl; [done|].
  destruct (isInternal t) eqn:Ht.
  - rewrite filter_cons_False by (by rewrite Ht). apply IH.
  - rewrite filter_cons_True by done. destruct j as [|j]; simpl.
    + rewrite Nat.add_0_r. rewrite registerExternals_below by lia.
      apply lookup_insert_eq.
    + replace (i + S j) with (S i + j) by lia. rewrite IH.
      destruct (filter _ targets !! j); [done|].
      apply lookup_insert_ne. intros E%referenceName_inj. lia.
Qed.

(** For a target that is not internal, standing at position [i] of its
    remote, the name the RemoteModule requests is bound by the registration
    of that remote to the [i]-th target among those that are not internal:
    a later target, or none, as soon as an internal target stands before
    position [i]. *)
Theorem requested_name_counts_externals_only (key : string) (config : RemoteConfig)
    (i : nat) (target : string) :
  external config !! i = Some target →
  isInternal target = false →
  ∃ name,
    remoteRequests key config !! i = Some name ∧
    registerExternals key (external config) 0 ∅ !! name =
    filter (λ t, isInternal t = false) (external config) !! i.
Proof.
  intros Hi Ht. exists (referenceName key i). split.
  - rewrite (remoteRequests_lookup _ _ _ _ Hi). by rewrite Ht.
  - rewrite (registerExternals_at key (external config) 0 ∅ i).
    destruct (filter _ (external config) !! i); [done | apply lookup_empty].
Qed.

(** Witness for [requested_name_counts_externals_only]: after one internal
    target, the name requested for the first location is bound to the
    second location. *)
Lemma requested_name_counts_externals_only_witness :
  let config := {| external := ["internal ./local"; "one@http://one/e.js"; "two@http://two/e.js"];
                   shareScope := "default" |} in
  ∃ name,
    remoteRequests "app1" config !! 1 = Some name ∧
    registerExternals "app1" (external config) 0 ∅ !! name =
    filter (λ t, isInternal t = false) (external config) !! 1.
Proof.
  intros config.
  apply (requested_name_counts_externals_only "app1" config 1 "one@http://one/e.js");
    reflexivity.
Defined.

Lemma registerExternals_all_internal (key : string) (targets : list string) :
  ∀ i acc,
    Forall (λ t, isInternal t = true) targets →
    registerExternals key targets i acc = acc.
Proof.
  induction targets as [|t targets IH]; intros i acc Hall; simpl; [done|].
  apply Forall_cons in Hall as [Ht Hall]. rewrite Ht. by apply IH.
Qed.

(** Remotes all of whose targets are internal register no external at all,
    and the modules made for them request each target without its
    marker. *)
Theorem internal_only_remotes_register_nothing
    (remotes : list (string * RemoteConfig)) :
  Forall (λ kc, Forall (λ t, isInternal t = true) (external kc.2)) remotes →
  remoteExternals remotes = ∅ ∧
  ∀ req m, factorize remotes req = Some m →
    ∃ key config, (key, config) ∈ remotes ∧
                  externalRequests m = map (λ t, slice t 9) (external config).
Proof.
  intros Hall. split.
  - unfold remoteExternals. generalize (∅ : gmap string string).
    induction Hall as [|[k c] remotes Hc _ IH]; intros acc; simpl; [done|].
    rewrite registerExternals_all_internal by done. apply IH.
  - intros req m H. unfold factorize in H. destruct (includes req "!"); [done|].
    apply findRemote_first in H as (pre & key & config & post & -> & _ & _ & ->).
    exists key, config. split; [apply elem_of_app; right; apply list_elem_of_here|].
    simpl. unfold remoteRequests.
    assert (Hc : Forall (λ t, isInternal t = true) (external config)).
    { rewrite Forall_forall in Hall.
      apply (Hall (key, config)). apply elem_of_app. right. apply list_elem_of_here. }
    apply list_eq. intros i. rewrite list_lookup_imap, list_lookup_fmap.
    destruct (external config !! i) as [t|] eqn:Hi; [|done]. simpl.
    rewrite Forall_lookup in Hc. by rewrite (Hc _ _ Hi).
Qed.

(** Witness for [internal_only_remotes_register_nothing]. *)
Lemma internal_only_remotes_register_nothing_witness :
  let remotes := [("app1", {| external := ["internal ./local"]; shareScope := "default" |})] in
  remoteExternals remotes = ∅ ∧
  ∀ req m, factorize remotes req = Some m →
    ∃ key config, (key, config) ∈ remotes ∧
                  externalRequests m = map (λ t, slice t 9) (external config).
Proof.
  intros remotes. apply (internal_only_remotes_register_nothing remotes).
  repeat constructor.
Defined.

End ContainerReferenceExtras.

(** ** Properties of the container entry glue *)
Module ContainerEntryFacts.
Import JS JSFacts ContainerEntry Samples.

Lemma strictEq_refl_object (r : nat) : strictEq (VObject r) (VObject r) = true.
Proof. simpl. apply Nat.eqb_refl. Qed.




Lemma moduleMap_setCurrentRemoteGetScope (v : value) (rt : Runtime) :
  moduleMap (setCurrentRemoteGetScope v rt) = moduleMap rt.
Proof. done. Qed.

Lemma runGetter_state (blockPromise : AsyncDependenciesBlock → promise unit)
    (getter : getterBody) (rt : Runtime) :
  (runGetter blockPromise getter rt).2 = rt.
Proof. by destruct getter. Qed.

(** C2.  For a name that is not a key of [moduleMap], [get] returns a
    promise rejected with the Error whose message is [Module "<name>" does
    not exist in container.], and [moduleMap] is the same afterwards; for a
    name that is a key, [get] completes the way the getter stored under
    that name does, called with the get scope installed, and [moduleMap] is
    again the same afterwards. *)
Theorem get_rejects_unknown_and_calls_known
    (blockPromise : AsyncDependenciesBlock → promise unit)
    (module : string) (getScope : value) (rt : Runtime) :
  (moduleMap rt !! module = None →
   (get blockPromise module getScope rt).1 =
     Return (Rejected (Error ("Module " +:+ String (ascii_of_nat 34) "" +:+ module +:+
                              String (ascii_of_nat 34) "" +:+
                              " does not exist in container."))) ∧
   moduleMap (get blockPromise module getScope rt).2 = moduleMap rt) ∧
  (∀ getter,
     moduleMap rt !! module = Some getter →
     (get blockPromise module getScope rt).1 =
       (runGetter blockPromise getter (setCurrentRemoteGetScope getScope rt)).1 ∧
     moduleMap (get blockPromise module getScope rt).2 = moduleMap rt).
Proof.
  split.
  - intros H. unfold get. rewrite moduleMap_setCurrentRemoteGetScope, H. done.
  - intros getter H. unfold get. rewrite moduleMap_setCurrentRemoteGetScope, H.
    pose proof (runGetter_state blockPromise getter
                  (setCurrentRemoteGetScope getScope rt)) as Hst.
    destruct (runGetter blockPromise getter (setCurrentRemoteGetScope getScope rt))
      as [[p|e] rt2]; simpl in *; by subst rt2.
Qed.

(** Witness for [get_rejects_unknown_and_calls_known]: asking an empty
    container for [missing]. *)
Lemma get_rejects_unknown_and_calls_known_witness :
  (get allLoaded "missing" (VObject 7) bareRuntime).1 =
    Return (Rejected (Error ("Module " +:+ String (ascii_of_nat 34) "" +:+ "missing" +:+
                             String (ascii_of_nat 34) "" +:+
                             " does not exist in container."))) ∧
  moduleMap (get allLoaded "missing" (VObject 7) bareRuntime).2 =
    moduleMap bareRuntime.
Proof.
  apply (proj1 (get_rejects_unknown_and_calls_known allLoaded
                  "missing" (VObject 7) bareRuntime)).
  reflexivity.
Defined.

Section Getters.

Variable getModule : ContainerExposedDependency → option Module.
Variable blockPromise : AsyncDependenciesBlock → promise unit.
Variable moduleExports : Module → value.

Lemma exposedDependencies_requests (exposed : string) (requests : list string) :
  ∀ idx, map userRequest (exposedDependencies exposed requests idx) = requests.
Proof. induction requests as [|r rs IH]; intros idx; simpl; [done | by rewrite IH]. Qed.

Lemma exposedDependencies_names (exposed : string) (requests : list string) :
  ∀ idx, Forall (λ dep, exposedName dep = exposed)
                (exposedDependencies exposed requests idx).
Proof.
  induction requests as [|r rs IH]; intros idx; simpl; constructor; [done | apply IH].
Qed.

Lemma resolved_no_missing (deps : list ContainerExposedDependency) :
  Forall (λ dep, is_Some (getModule dep)) deps →
  existsb unresolved (map (toExposedModule getModule) deps) = false ∧
  Forall2 (rawOf getModule) (moduleRaws (map (toExposedModule getModule) deps)) deps.
Proof.
  induction 1 as [|dep deps [md Hmd] _ [IH1 IH2]]; simpl; [by split; constructor|].
  unfold unresolved at 1. simpl. rewrite Hmd. simpl. split; [done|].
  constructor; [by split | done].
Qed.

Lemma unresolved_some_missing (deps : list ContainerExposedDependency) :
  Exists (λ dep, getModule dep = None) deps →
  existsb unresolved (map (toExposedModule getModule) deps) = true.
Proof.
  induction 1 as [dep deps Hdep | dep deps _ IH]; simpl.
  - unfold unresolved at 1. simpl. by rewrite Hdep.
  - rewrite IH. apply orb_true_r.
Qed.

Lemma evalSequence_last (sequence : list ModuleRaw) :
  ∀ current rt,
    (evalSequence moduleExports sequence current rt).1 =
      default current (moduleExports ∘ rawModule <$> last sequence) ∧
    requireLog (evalSequence moduleExports sequence current rt).2 =
      requireLog rt ++ map rawModule sequence.
Proof.
  induction sequence as [|raw rest IH]; intros current rt; simpl.
  - by rewrite app_nil_r.
  - destruct (IH (moduleExports (rawModule raw)) (logRequire (rawModule raw) rt))
      as [IH1 IH2].
    rewrite IH1, IH2. simpl. split.
    + rewrite (last_cons raw rest). by destruct (last rest).
    + by rewrite <- app_assoc.
Qed.

Lemma objectLiteral_step (getters : list (string * getterBody)) :
  ∀ (acc : gmap string getterBody) (k : string),
    k ∉ getters.*1 →
    foldl (λ obj g, <[g.1 := g.2]> obj) acc getters !! k = acc !! k.
Proof.
  induction getters as [|[k' b'] getters IH]; intros acc k Hk; simpl; [done|].
  rewrite fmap_cons in Hk. apply not_elem_of_cons in Hk as [Hne Hk].
  rewrite IH by done. by apply lookup_insert_ne.
Qed.

Lemma objectLiteral_lookup (getters : list (string * getterBody)) :
  ∀ (acc : gmap string getterBody) (k : string) (body : getterBody),
    NoDup getters.*1 →
    (k, body) ∈ getters →
    foldl (λ obj g, <[g.1 := g.2]> obj) acc getters !! k = Some body.
Proof.
  induction getters as [|[k' b'] getters IH]; intros acc k body Hnd Hin; simpl.
  - by apply elem_of_nil in Hin.
  - rewrite fmap_cons in Hnd. apply NoDup_cons in Hnd as [Hfresh Hnd].
    apply elem_of_cons in Hin as [[= -> ->] | Hin].
    + rewrite objectLiteral_step by done. apply lookup_insert_eq.
    + by apply IH.
Qed.

Lemma blockGetter_name (exposed : string) (options : ExposeOptions)
    (g : string * getterBody) :
  blockGetter getModule (exposeBlock exposed options) = Some g → g.1 = exposed.
Proof.
  unfold blockGetter, exposedModules, exposeBlock. simpl.
  destruct (import options) as [|r rs]; simpl; [done|].
  by intros [= <-].
Qed.

Lemma getters_of_exposes (exposes : list (string * ExposeOptions)) :
  ∀ getters,
    Forall2 (λ block g, blockGetter getModule block = Some g) (build exposes) getters →
    getters.*1 = exposes.*1 ∧
    ∀ exposed options, (exposed, options) ∈ exposes →
      ∃ body, blockGetter getModule (exposeBlock exposed options) = Some (exposed, body) ∧
              (exposed, body) ∈ getters.
Proof.
  induction exposes as [|[e o] exposes IH]; intros getters H; simpl in H.
  - apply Forall2_nil_inv_l in H as ->. split; [done|].
    intros ? ? Hin. by apply elem_of_nil in Hin.
  - apply Forall2_cons_inv_l in H as (g & getters' & Hg & Hrest & ->).
    destruct (IH _ Hrest) as [IHk IHb].
    pose proof (blockGetter_name _ _ _ Hg) as Hname. destruct g as [k b].
    simpl in Hname. subst k. split; [by rewrite !fmap_cons, IHk|].
    intros exposed options [[= -> ->] | Hin]%elem_of_cons.
    + exists b. split; [done | apply list_elem_of_here].
    + destruct (IHb _ _ Hin) as (body & ? & ?).
      exists body. split; [done | by apply list_elem_of_further].
Qed.


End Getters.



End ContainerEntryFacts.

(** ** Further properties of the container entry *)
Module ContainerEntryExtras.
Import JS JSFacts ContainerEntry ContainerEntryFacts Samples.

(** *** [build] *)

Lemma exposedDependencies_lookup (exposed : string) (requests : list string) :
  ∀ idx j req,
    requests !! j = Some req →
    exposedDependencies exposed requests idx !! j =
    Some {| exposedName := exposed; userRequest := req; index := idx + j |}.
Proof.
  induction requests as [|r rs IH]; intros idx j req Hj; [done|].
  destruct j as [|j]; simpl in *.
  - injection Hj as ->. by rewrite Nat.add_0_r.
  - rewrite (IH (S idx) j req Hj). do 2 f_equal. lia.
Qed.

Lemma exposedDependencies_length (exposed : string) (requests : list string) :
  ∀ idx, length (exposedDependencies exposed requests idx) = length requests.
Proof. induction requests as [|r rs IH]; intros idx; simpl; [done | by rewrite IH]. Qed.

(** [build] makes one block per exposed entry, in order.  The block of an
    entry is named after it, asks for the last import request, and holds
    one dependency per import request, in order, each carrying the exposed
    name and its own position as index. *)
Theorem build_blocks_follow_exposes (exposes : list (string * ExposeOptions))
    (i : nat) (exposed : string) (options : ExposeOptions) :
  exposes !! i = Some (exposed, options) →
  length (build exposes) = length exposes ∧
  ∃ block,
    build exposes !! i = Some block ∧
    locName block = exposed ∧
    groupName block = name options ∧
    blockRequest block = last (import options) ∧
    length (dependencies block) = length (import options) ∧
    ∀ j req, import options !! j = Some req →
      dependencies block !! j =
      Some {| exposedName := exposed; userRequest := req; index := j |}.
Proof.
  intros Hi. unfold build. rewrite length_map. split; [done|].
  exists (exposeBlock exposed options). rewrite list_lookup_fmap, Hi. simpl.
  repeat split.
  - apply exposedDependencies_length.
  - intros j req Hj. by apply (exposedDependencies_lookup exposed _ 0 j req).
Qed.

(** Witness for [build_blocks_follow_exposes]. *)
Lemma build_blocks_follow_exposes_witness :
  length (build [("./Button", button)]) = length [("./Button", button)] ∧
  ∃ block,
    build [("./Button", button)] !! 0 = Some block ∧
    locName block = "./Button" ∧
    groupName block = name button ∧
    blockRequest block = last (import button) ∧
    length (dependencies block) = length (import button) ∧
    ∀ j req, import button !! j = Some req →
      dependencies block !! j =
      Some {| exposedName := "./Button"; userRequest := req; index := j |}.
Proof.
  apply (build_blocks_follow_exposes [("./Button", button)] 0 "./Button" button).
  reflexivity.
Defined.

(** *** [codeGeneration] *)

Section Generation.

Variable getModule : ContainerExposedDependency → option Module.

Lemma blockGetter_is_Some (exposed : string) (options : ExposeOptions) :
  is_Some (blockGetter getModule (exposeBlock exposed options)) ↔ import options ≠ [].
Proof.
  unfold blockGetter, exposedModules, exposeBlock. simpl.
  destruct (import options) as [|r rs]; simpl.
  - split; [by intros [? ?] | done].
  - split; [done | eauto].
Qed.

(** Code generation goes through exactly when every exposed entry has at
    least one import request; an entry without any makes it fail. *)
Theorem codeGeneration_needs_imports (exposes : list (string * ExposeOptions)) :
  is_Some (codeGeneration getModule (build exposes)) ↔
  Forall (λ e, import e.2 ≠ []) exposes.
Proof.
  unfold codeGeneration. rewrite fmap_is_Some, mapM_is_Some.
  unfold build. rewrite Forall_fmap. apply Forall_proper; [|done].
  intros [exposed options]. simpl. apply blockGetter_is_Some.
Qed.

(** Exposes given as plain requests (the short-hand of [ContainerPlugin])
    have one import request each, so code generation goes through for
    them. *)
Corollary plain_exposes_generate (items : list (string * string)) :
  is_Some (codeGeneration getModule
             (build (map (λ kr, (kr.1, exposeSimple (ExposeRequest kr.2))) items))).
Proof.
  apply codeGeneration_needs_imports. rewrite Forall_fmap.
  apply Forall_forall. by intros [k r] _.
Qed.

Lemma objectLiteral_dom (getters : list (string * getterBody)) :
  ∀ acc : gmap string getterBody,
    dom (foldl (λ obj g, <[g.1 := g.2]> obj) acc getters) =
    dom acc ∪ list_to_set getters.*1.
Proof.
  induction getters as [|[k b] getters IH]; intros acc; simpl.
  - by rewrite (right_id_L ∅ (∪)).
  - rewrite IH, dom_insert_L.
    by rewrite (comm_L (∪) {[k]} (dom acc)), <- (assoc_L (∪)).
Qed.

Lemma getters_keys (exposes : list (string * ExposeOptions)) :
  ∀ getters,
    Forall2 (λ block g, blockGetter getModule block = Some g) (build exposes) getters →
    getters.*1 = exposes.*1.
Proof. intros getters H. by destruct (getters_of_exposes getModule _ _ H). Qed.


Lemma objectLiteral_last (pre post : list (string * getterBody)) (k : string)
    (body : getterBody) (acc : gmap string getterBody) :
  k ∉ post.*1 →
  foldl (λ obj g, <[g.1 := g.2]> obj) acc (pre ++ (k, body) :: post) !! k = Some body.
Proof.
  intros Hk. rewrite foldl_app. simpl.
  rewrite objectLiteral_step by done. apply lookup_insert_eq.
Qed.

Lemma generated_lookup (pre post : list (string * ExposeOptions))
    (exposed : string) (options : ExposeOptions) (generated : gmap string getterBody) :
  exposed ∉ post.*1 →
  codeGeneration getModule (build (pre ++ (exposed, options) :: post)) = Some generated →
  ∃ body,
    blockGetter getModule (exposeBlock exposed options) = Some (exposed, body) ∧
    generated !! exposed = Some body.
Proof.
  intros Hlast H. unfold codeGeneration in H.
  destruct (mapM (blockGetter getModule) (build (pre ++ (exposed, options) :: post)))
    as [getters|] eqn:Hm; [|done].
  injection H as <-. apply mapM_Some in Hm.
  unfold build in Hm. rewrite fmap_app, fmap_cons in Hm.
  apply Forall2_app_inv_l in Hm as (gpre & grest & _ & Hrest & ->).
  apply Forall2_cons_inv_l in Hrest as (g & gpost & Hg & Hpost & ->).
  simpl in Hg. pose proof (blockGetter_name getModule _ _ _ Hg) as Hname.
  destruct g as [k body]. simpl in Hname. subst k.
  exists body. split; [done|].
  apply objectLiteral_last. by rewrite (getters_keys post gpost Hpost).
Qed.


Lemma blockGetter_resolved (exposed : string) (options : ExposeOptions) :
  import options ≠ [] →
  Forall (λ dep, is_Some (getModule dep)) (dependencies (exposeBlock exposed options)) →
  blockGetter getModule (exposeBlock exposed options) =
  Some (exposed,
        ReturnBlockPromise (exposeBlock exposed options)
          (moduleRaws (map (toExposedModule getModule)
                           (dependencies (exposeBlock exposed options))))).
Proof.
  intros Hne Hall. destruct (resolved_no_missing getModule _ Hall) as [Hex _].
  unfold blockGetter, exposedModules. rewrite Hex.
  unfold exposeBlock. simpl. destruct (import options); [done|]. done.
Qed.

End Generation.



(** *** [get] and the accessor *)


Section EndToEnd.

Variable getModule : ContainerExposedDependency → option Module.
Variable blockPromise : AsyncDependenciesBlock → promise unit.
Variable moduleExports : Module → value.

Lemma last_dependency (exposed : string) (requests : list string) (lastRequest : string) :
  last (exposedDependencies exposed (requests ++ [lastRequest]) 0) =
  Some {| exposedName := exposed; userRequest := lastRequest; index := length requests |}.
Proof.
  rewrite last_lookup, exposedDependencies_length, List.length_app. simpl.
  replace (pred (length requests + 1)) with (length requests) by lia.
  apply (exposedDependencies_lookup exposed _ 0 (length requests) lastRequest).
  by rewrite lookup_app_r, Nat.sub_diag.
Qed.


End EndToEnd.


(** *** [init] *)

Lemma strictEq_refl (v : value) : strictEq v v = true.
Proof.
  destruct v; simpl; try done.
  - by destruct b.
  - apply Z.eqb_refl.
  - apply String.eqb_refl.
  - apply Nat.eqb_refl.
  - apply Nat.eqb_refl.
Qed.



(** *** The module object *)

(** What [serialize] writes, [deserialize] reads back: the module with the
    same name, exposes and share scope, leaving in the stream exactly what
    the base class wrote. *)
Theorem deserialize_serialize (written stream : list Serialized)
    (m : ContainerEntryModule) :
  deserialize (drop (length stream) (serialize written m stream)) = Some (m, written).
Proof.
  unfold serialize. rewrite <- app_assoc, drop_app_length. by destruct m.
Qed.

(** Within one layer, or without layers, two container entries have the
    same library identifier only if they have the same name; and an entry
    in a layer never shares its identifier with one outside any layer. *)
Theorem libIdent_tells_names_apart (layer : option string) (m m' : ContainerEntryModule) :
  (libIdent layer m = libIdent layer m' → _name m = _name m') ∧
  (truthyStr layer = true → libIdent layer m ≠ libIdent None m').
Proof.
  unfold libIdent. split.
  - intros H. apply (inj (String.app _)) in H. by apply (inj (String.app _)) in H.
  - intros Hlayer. rewrite Hlayer. simpl. discriminate.
Qed.

End ContainerEntryExtras.

(** ** Properties of the federation plugin *)
Module ModuleFederationFacts.
Import JS JSFacts ModuleFederation.

Section Plugins.

Context {Exposed Remote Shared : Type}.
Variable isValidExternalsType : string → bool.

Lemma enabled_type_present (enabledLibraryTypes : list string)
    (options : Options Exposed Remote Shared) :
  libraryType (libraryOf options) ∈ enableLibraryType enabledLibraryTypes options.
Proof.
  unfold enableLibraryType. case_bool_decide as Hin; [done|].
  apply elem_of_app. right. apply list_elem_of_here.
Qed.

(** After [ModuleFederationPlugin.apply] the type of the library is
    enabled; the types enabled before are kept in front, at most one is
    added, none is added twice, and applying again adds nothing. *)
Theorem federation_enables_library_type_once (enabledLibraryTypes : list string)
    (options : Options Exposed Remote Shared) :
  let enabled := enableLibraryType enabledLibraryTypes options in
  libraryType (libraryOf options) ∈ enabled ∧
  (∃ added, enabled = enabledLibraryTypes ++ added ∧ length added ≤ 1) ∧
  (NoDup enabledLibraryTypes → NoDup enabled) ∧
  enableLibraryType enabled options = enabled.
Proof.
  unfold enableLibraryType. simpl.
  destruct (bool_decide (libraryType (libraryOf options) ∈ enabledLibraryTypes)) eqn:Hin.
  - apply bool_decide_eq_true in Hin. repeat split; [done | | done | ].
    + exists []. split; [by rewrite app_nil_r | simpl; lia].
    + by rewrite bool_decide_eq_true_2.
  - apply bool_decide_eq_false in Hin. repeat split.
    + apply elem_of_app. right. apply list_elem_of_here.
    + exists [libraryType (libraryOf options)]. split; [done | simpl; lia].
    + intros Hnd. apply NoDup_app. split; [done|]. split; [|apply NoDup_singleton].
      intros x Hx ->%list_elem_of_singleton. done.
    + rewrite bool_decide_eq_true_2; [done|].
      apply elem_of_app. right. apply list_elem_of_here.
Qed.

(** [ContainerPlugin.apply] pushes the library type without looking: when
    the federation plugin has exposes to hand on, the type it has just
    enabled is listed once more, so that the list holds it twice; without
    exposes, or with empty ones, the list stays as the federation plugin
    left it. *)
Theorem container_plugin_lists_type_again (enabledLibraryTypes : list string)
    (options : Options Exposed Remote Shared) :
  enabledAfterContainerPlugin isValidExternalsType enabledLibraryTypes options =
  enableLibraryType enabledLibraryTypes options ++
  (match exposes options with
   | Some e => if nonEmpty e then [libraryType (libraryOf options)] else []
   | None => []
   end) ∧
  (∀ e, exposes options = Some e → nonEmpty e = true →
        ¬ NoDup (enabledAfterContainerPlugin isValidExternalsType enabledLibraryTypes
                   options)).
Proof.
  assert (Heq : enabledAfterContainerPlugin isValidExternalsType enabledLibraryTypes options =
                enableLibraryType enabledLibraryTypes options ++
                (match exposes options with
                 | Some e => if nonEmpty e then [libraryType (libraryOf options)] else []
                 | None => []
                 end)).
  { unfold enabledAfterContainerPlugin, afterPlugins.
    destruct (exposes options) as [e|]; [destruct (nonEmpty e)|]; simpl; [done| |];
      (destruct (remotes options) as [r|]; [destruct (nonEmpty r)|]);
      destruct (shared options); simpl; by rewrite app_nil_r. }
  split; [done|].
  intros e He Hne. rewrite Heq, He, Hne. intros Hnd.
  apply NoDup_app in Hnd as (_ & Hdisjoint & _).
  apply (Hdisjoint _ (enabled_type_present enabledLibraryTypes options)).
  apply list_elem_of_here.
Qed.

(** Which plugins the [afterPlugins] hook applies.  None at all exactly
    when exposes and remotes are absent or empty and shared is absent; a
    shared option that is present is handed to the share plugin even when
    it is empty; and every plugin applied gets the share scope of the
    federation options, the container plugin the library of the federation
    plugin and the reference plugin its remote type. *)
Theorem plugins_follow_options (options : Options Exposed Remote Shared) :
  (afterPlugins isValidExternalsType options = [] ↔
   match exposes options with Some e => nonEmpty e = false | None => True end ∧
   match remotes options with Some r => nonEmpty r = false | None => True end ∧
   shared options = None) ∧
  (∀ s, shared options = Some s →
        SharePluginApplied s (shareScope options)
          ∈ afterPlugins isValidExternalsType options) ∧
  Forall (λ applied,
            match applied with
            | ContainerPluginApplied o =>
                cpShareScope o = shareScope options ∧
                cpLibrary o = Some (libraryOf options) ∧
                exposes options = Some (cpExposes o)
            | ContainerReferencePluginApplied rt scope r =>
                scope = shareScope options ∧
                rt = remoteTypeOf isValidExternalsType options ∧
                remotes options = Some r
            | SharePluginApplied s scope =>
                scope = shareScope options ∧ shared options = Some s
            end)
         (afterPlugins isValidExternalsType options).
Proof.
  unfold afterPlugins.
  destruct (exposes options) as [e|]; [destruct (nonEmpty e)|];
    (destruct (remotes options) as [r|]; [destruct (nonEmpty r)|]);
    destruct (shared options) as [s|]; simpl;
    (split; [split; [try done; by intros (? & ? & ?) | try done; by intros (? & ? & ?)]|]);
    (split; [intros ? [= <-]; rewrite ?elem_of_cons; by eauto 6 | repeat constructor]).
Qed.

End Plugins.

End ModuleFederationFacts.

(** ** Properties of the shared-consume plugin *)
Module ConsumeSharedFacts.
Import JS JSFacts ConsumeShared Samples.

Section Mappers.

Context {Range : Type}.
Variable parseRange : string → Range.
Variable isRequiredVersion : string → bool.

(** C3 (as amended).  For a long-hand entry whose [strictVersion] is not
    given as a boolean, the parsed [strictVersion] is true exactly when
    [singleton] is not truthy and [import] is not [false]; a boolean given
    is taken as it is.  For a short-hand entry, which has neither
    [singleton] nor a disabled import, the parsed [strictVersion] is true
    exactly when the item differs from its key and reads as a required
    version. *)
Theorem strictVersion_default :
  (∀ optionsShareScope item key,
     cfgStrictVersion item = None →
     (strictVersion (consumeOptions parseRange optionsShareScope item key) = true ↔
      default false (cfgSingleton item) = false ∧ cfgImport item ≠ ImportFalse)) ∧
  (∀ optionsShareScope item key b,
     cfgStrictVersion item = Some b →
     strictVersion (consumeOptions parseRange optionsShareScope item key) = b) ∧
  (∀ optionsShareScope item key entry,
     consumeSimple parseRange isRequiredVersion optionsShareScope (ItemString item) key
       = Ok entry →
     (strictVersion entry = true ↔ item ≠ key ∧ isRequiredVersion item = true) ∧
     singleton entry = false ∧
     import entry = Some key).
Proof.
  split; [|split].
  - intros optionsShareScope item key H. unfold consumeOptions, importEnabled. simpl.
    rewrite H. destruct (cfgImport item), (default false (cfgSingleton item));
      simpl; split; try done; intros [? ?]; done.
  - intros optionsShareScope item key b H. unfold consumeOptions. simpl. by rewrite H.
  - intros optionsShareScope item key entry H. simpl in H. injection H as <-.
    destruct (String.eqb item key) eqn:Hkey.
    + apply String.eqb_eq in Hkey. simpl.
      repeat split; try done. by intros [? _].
    + apply String.eqb_neq in Hkey. simpl.
      destruct (isRequiredVersion item); simpl; repeat split; try done.
      by intros [_ ?].
Qed.

End Mappers.

(** Witness for [strictVersion_default]: the long-hand entry
    [{ singleton: true }] under key [react]. *)
Lemma strictVersion_default_witness :
  let item := {| cfgImport := ImportUnset; cfgShareScope := None; cfgShareKey := None;
                 cfgRequiredVersion := VersionUnset; cfgStrictVersion := None;
                 cfgPackageName := None; cfgSingleton := Some true;
                 cfgEager := None |} in
  strictVersion (consumeOptions rangeText None item "react") = true ↔
  default false (cfgSingleton item) = false ∧ cfgImport item ≠ ImportFalse.
Proof.
  intros item.
  apply (proj1 (strictVersion_default rangeText anyVersion) None item "react").
  reflexivity.
Defined.

(** C3 (as stated) fails: the short-hand entry [react] given by its own
    name has no [singleton] and no disabled import, and its
    [strictVersion] is false. *)
Lemma shorthand_request_is_not_strict :
  ∃ entry,
    consumeSimple rangeText anyVersion None (ItemString "react") "react" = Ok entry ∧
    singleton entry = false ∧
    import entry = Some "react" ∧
    strictVersion entry = false ∧
    ¬ (strictVersion entry = true ↔ singleton entry = false ∧ import entry ≠ None).
Proof.
  eexists. split; [reflexivity|]. simpl. repeat split.
  intros [_ H]. by discriminate H.
Qed.

(** The patterns on sample requests. *)
Example packageNamePattern_samples :
  map packageNamePattern ["@scope/pkg/sub"; "lodash/fp"; "react"; "@scope"; "./utils"; ""]
  = [Some "@scope/pkg"; Some "lodash"; Some "react"; Some "@scope"; Some "."; None].
Proof. reflexivity. Qed.

Example absolutePattern_samples :
  map absolutePattern ["/abs/path"; "C:dir"; "./utils"; "../utils"; "react"]
  = [true; true; false; false; false].
Proof. reflexivity. Qed.

Example relativePattern_samples :
  map relativePattern ["."; ".."; "./utils"; "../utils"; ".hidden"; "/abs"; "react"]
  = [true; true; true; true; false; false; false].
Proof. reflexivity. Qed.

Section Creation.

Context {Range DescriptionData : Type}.
Variable parseRange : string → Range.
Variable compilerContext : string.
Variable resolve : string → string → Resolution.
Variable getDescriptionFile : string → DescriptionLookup DescriptionData.
Variable getRequiredVersionFromDescriptionFile : DescriptionData → string → option string.

Local Abbreviation determine :=
  (determineRequiredVersion parseRange getDescriptionFile
     getRequiredVersionFromDescriptionFile).
Local Abbreviation create :=
  (createConsumeSharedModule parseRange compilerContext resolve getDescriptionFile
     getRequiredVersionFromDescriptionFile).

(** A request matched by the absolute-path pattern begins with [/], with a
    letter and a colon, or with two backslashes. *)
Lemma absolutePattern_spec (request : string) :
  absolutePattern request = true ↔
  (∃ rest, request = String "/"%char rest) ∨
  (∃ c rest, isLetter c = true ∧ request = String c (String ":"%char rest)) ∨
  (∃ rest, request = String backslash (String backslash rest)).
Proof.
  split.
  - destruct request as [|c rest]; simpl; [done|].
    intros [[H | [Hl H]%andb_true_iff]%orb_true_iff | [Hb H]%andb_true_iff]%orb_true_iff.
    + apply Ascii.eqb_eq in H as ->. left. by exists rest.
    + destruct rest as [|d rest]; [done|]. apply Ascii.eqb_eq in H as ->.
      right. left. by exists c, rest.
    + destruct rest as [|d rest]; [done|].
      apply Ascii.eqb_eq in H as ->. apply Ascii.eqb_eq in Hb as ->.
      right. right. by exists rest.
  - intros [[rest ->] | [(c & rest & Hl & ->) | [rest ->]]]; simpl;
      rewrite ?Hl; simpl; rewrite ?orb_true_r; done.
Qed.

(** For an absolute request without [requiredVersion] and [packageName],
    nothing is looked up and nothing is reported. *)
Lemma absolute_request_skips_inference (context request : string)
    (config : ConsumeOptions Range) (c : Compilation) :
  requiredVersion config = RVUndefined →
  packageName config = None →
  absolutePattern request = true →
  determine context request config c = (RVUndefined, c).
Proof.
  intros Hrv Hpn Habs. unfold determineRequiredVersion. by rewrite Hrv, Hpn, Habs.
Qed.

Lemma lookupRequiredVersion_errors (context request name : string) (c : Compilation) :
  errors (lookupRequiredVersion parseRange getDescriptionFile
            getRequiredVersionFromDescriptionFile context request name c).2 = errors c.
Proof.
  unfold lookupRequiredVersion.
  destruct (getDescriptionFile context) as [e | [data|] path]; simpl; try done.
  by destruct (getRequiredVersionFromDescriptionFile data name).
Qed.

(** Determining the required version never touches [compilation.errors]. *)
Lemma determine_errors (context request : string) (config : ConsumeOptions Range)
    (c : Compilation) :
  errors (determine context request config c).2 = errors c.
Proof.
  unfold determineRequiredVersion.
  destruct (requiredVersion config); try done.
  destruct (packageName config); [apply lookupRequiredVersion_errors|].
  destruct (absolutePattern request); [done|].
  destruct (packageNamePattern request); [apply lookupRequiredVersion_errors | done].
Qed.

(** Resolving the fallback never touches [compilation.warnings]. *)
Lemma resolveFallback_warnings (context request : string) (config : ConsumeOptions Range)
    (c : Compilation) :
  warnings (resolveFallback compilerContext resolve context request config c).2 =
  warnings c.
Proof. unfold resolveFallback. by destruct (truthyStr (import config)). Qed.

Lemma lookup_fails (context request name details : string) (c : Compilation) :
  match getDescriptionFile context with
  | DescriptionError e => details = "Unable to read description file: " +:+ e
  | DescriptionResult None path =>
      details = "Unable to find description file in " +:+ context +:+ "."
  | DescriptionResult (Some data) path =>
      getRequiredVersionFromDescriptionFile data name = None ∧
      details = "Unable to find required version for " +:+ dquote +:+ name +:+
                dquote +:+ " in description file (" +:+ path +:+
                "). It need to be in dependencies, devDependencies or peerDependencies."
  end →
  lookupRequiredVersion parseRange getDescriptionFile
    getRequiredVersionFromDescriptionFile context request name c =
  (RVUndefined, requiredVersionWarning request details (logDescriptionLookup context c)).
Proof.
  unfold lookupRequiredVersion.
  destruct (getDescriptionFile context) as [e | [data|] path].
  - by intros ->.
  - intros [Hnone ->]. by rewrite Hnone.
  - by intros ->.
Qed.

Lemma determine_fails (context request details : string) (config : ConsumeOptions Range)
    (c : Compilation) :
  requiredVersion config = RVUndefined →
  inferenceFails getDescriptionFile getRequiredVersionFromDescriptionFile
    context request config details →
  ∃ c', determine context request config c =
          (RVUndefined, requiredVersionWarning request details c') ∧
        warnings c' = warnings c.
Proof.
  intros Hrv Hfail. unfold determineRequiredVersion. rewrite Hrv.
  assert (Hlookup : ∀ name,
            inferredPackageName request config = Some name →
            match packageName config with
            | Some name' => lookupRequiredVersion parseRange getDescriptionFile
                              getRequiredVersionFromDescriptionFile context request name' c
            | None =>
                if absolutePattern request then (RVUndefined, c)
                else match packageNamePattern request with
                     | None => (RVUndefined,
                                requiredVersionWarning request
                                  "Unable to extract the package name from request." c)
                     | Some name' =>
                         lookupRequiredVersion parseRange getDescriptionFile
                           getRequiredVersionFromDescriptionFile context request name' c
                     end
            end =
            lookupRequiredVersion parseRange getDescriptionFile
              getRequiredVersionFromDescriptionFile context request name c).
  { intros name. unfold inferredPackageName.
    destruct (packageName config); [by intros [= ->]|].
    destruct (absolutePattern request); [done|].
    destruct (packageNamePattern request); [by intros [= ->] | done]. }
  destruct Hfail as [Hpn Habs Hpat | name e Hname Hget | name path Hname Hget
                     | name path data Hname Hget Hnone].
  - rewrite Hpn, Habs, Hpat. by exists c.
  - rewrite (Hlookup _ Hname). exists (logDescriptionLookup context c).
    split; [|done]. apply lookup_fails. by rewrite Hget.
  - rewrite (Hlookup _ Hname). exists (logDescriptionLookup context c).
    split; [|done]. apply lookup_fails. by rewrite Hget.
  - rewrite (Hlookup _ Hname). exists (logDescriptionLookup context c).
    split; [|done]. apply lookup_fails. by rewrite Hget.
Qed.


End Creation.



Section Hooks.

Context {Range DescriptionData : Type}.
Variable parseRange : string → Range.
Variable compilerContext : string.
Variable resolve : string → string → Resolution.
Variable getDescriptionFile : string → DescriptionLookup DescriptionData.
Variable getRequiredVersionFromDescriptionFile : DescriptionData → string → option string.

Local Abbreviation create :=
  (createConsumeSharedModule parseRange compilerContext resolve getDescriptionFile
     getRequiredVersionFromDescriptionFile).
Local Abbreviation hook :=
  (factorize parseRange compilerContext resolve getDescriptionFile
     getRequiredVersionFromDescriptionFile).

(** The loop over the prefixes stops at the first one the request starts
    with. *)
Lemma factorizePrefixed_first (pre post : list (string * ConsumeOptions Range))
    (prefix remainder context : string) (options : ConsumeOptions Range)
    (c : Compilation) :
  Forall (λ po, ∀ rest, prefix +:+ remainder ≠ po.1 +:+ rest) pre →
  factorizePrefixed parseRange compilerContext resolve getDescriptionFile
    getRequiredVersionFromDescriptionFile
    (pre ++ (prefix, options) :: post) context (prefix +:+ remainder) c =
  ((Some (create context (prefix +:+ remainder) (prefixedOptions options remainder) c).1),
   (create context (prefix +:+ remainder) (prefixedOptions options remainder) c).2).
Proof.
  induction 1 as [|[p o] pre Hp _ IH]; simpl.
  - rewrite startsWith_app, slice_app.
    by destruct (create context (prefix +:+ remainder)
                   (prefixedOptions options remainder) c).
  - destruct (startsWith (prefix +:+ remainder) p) eqn:Hs; [|done].
    apply startsWith_inv in Hs as [rest Hrest]. by destruct (Hp rest).
Qed.

(** The share key of the options survives the creation of the module; the
    import target survives when the fallback resolved to something. *)
Lemma create_keeps_share_key (context request : string) (config : ConsumeOptions Range)
    (c : Compilation) :
  shareKey (options (create context request config c).1) = shareKey config ∧
  import (options (create context request config c).1) =
    (if truthyStr (importResolved (options (create context request config c).1))
     then import config else None).
Proof.
  unfold createConsumeSharedModule.
  destruct (resolveFallback compilerContext resolve context request config c)
    as [resolvedImport c1].
  by destruct (determineRequiredVersion parseRange getDescriptionFile
                 getRequiredVersionFromDescriptionFile context request config c1).
Qed.


End Hooks.



End ConsumeSharedFacts.

(** ** Further properties of the shared-consume plugin *)
Module ConsumeSharedExtras.
Import JS JSFacts ConsumeShared ConsumeSharedFacts Samples.

(** *** The package-name pattern *)

Lemma takeSegment_app (s : string) :
  s = (takeSegment s).1 +:+ (takeSegment s).2.
Proof.
  induction s as [|c s IH]; simpl; [done|].
  destruct (isSeparator c); [done|].
  destruct (takeSegment s) as [segment after]. simpl in *.
  change (String c s = String c (segment +:+ after)). by f_equal.
Qed.

Lemma takeSegment_empty (s : string) :
  (takeSegment s).1 = "" ↔
  s = "" ∨ ∃ c rest, s = String c rest ∧ isSeparator c = true.
Proof.
  destruct s as [|c s]; simpl.
  - split; [by left | done].
  - destruct (isSeparator c) eqn:Hc.
    + split; [|done]. intros _. right. by exists c, s.
    + destruct (takeSegment s) as [segment after]. simpl. split; [done|].
      intros [? | (c' & rest & [= -> ->] & Hsep)]; [done|]. congruence.
Qed.

Lemma segmentPattern_None (s : string) :
  segmentPattern s = None ↔ (takeSegment s).1 = "".
Proof.
  unfold segmentPattern. destruct (takeSegment s) as [[|c segment] after]; simpl;
    by split.
Qed.

Lemma segmentPattern_Some (s name : string) :
  segmentPattern s = Some name → name ≠ "" ∧ ∃ rest, s = name +:+ rest.
Proof.
  unfold segmentPattern. pose proof (takeSegment_app s) as Happ.
  destruct (takeSegment s) as [[|c segment] after]; simpl in *; [done|].
  intros [= <-]. split; [done|]. by exists after.
Qed.

Lemma string_app_assoc (a b c : string) : (a +:+ b) +:+ c = a +:+ (b +:+ c).
Proof.
  induction a as [|x a IH]; [done|].
  change (String x ((a +:+ b) +:+ c) = String x (a +:+ (b +:+ c))). by rewrite IH.
Qed.

(** The package name read off a request is a non-empty prefix of the
    request, and there is none exactly when the request is empty or begins
    with a slash or a backslash. *)
Theorem packageNamePattern_reads_a_prefix (s : string) :
  (packageNamePattern s = None ↔
   s = "" ∨ ∃ c rest, s = String c rest ∧ isSeparator c = true) ∧
  (∀ name, packageNamePattern s = Some name →
           name ≠ "" ∧ ∃ rest, s = name +:+ rest).
Proof.
  unfold packageNamePattern. split.
  - rewrite <- takeSegment_empty, <- segmentPattern_None.
    destruct s as [|c s]; [done|].
    destruct (Ascii.eqb c "@"%char) eqn:Hat; [|done].
    apply Ascii.eqb_eq in Hat as ->.
    destruct (takeSegment s) as [[|x scope] [|sep after]]; try done.
    destruct (segmentPattern after) as [pkg|]; simpl; [|done].
    split; [done|]. unfold segmentPattern. simpl.
    by destruct (takeSegment s) as [? ?].
  - intros name. destruct s as [|c s]; [apply segmentPattern_Some|].
    destruct (Ascii.eqb c "@"%char) eqn:Hat; [|apply segmentPattern_Some].
    pose proof (takeSegment_app s) as Hs.
    destruct (takeSegment s) as [[|x scope] [|sep after]]; simpl in Hs;
      try apply segmentPattern_Some.
    destruct (segmentPattern after) as [pkg|] eqn:Hpkg; simpl;
      [|apply segmentPattern_Some].
    intros [= <-]. split; [done|].
    apply segmentPattern_Some in Hpkg as [_ [rest ->]].
    exists rest. rewrite Hs.
    change (String c (String x scope +:+ String sep (pkg +:+ rest)) =
            String c ((String x scope +:+ String sep pkg) +:+ rest)).
    f_equal. rewrite string_app_assoc. f_equal.
Qed.

(** *** The option mappers *)

Section Mappers.

Context {Range : Type}.
Variable parseRange : string → Range.
Variable isRequiredVersion : string → bool.

Lemma orElse_default (o : option string) (d : string) : d ≠ "" → orElse o d ≠ "".
Proof.
  intros Hd. unfold orElse. destruct o as [s|]; [|done].
  destruct (String.eqb s "") eqn:E; [done|]. by apply String.eqb_neq in E.
Qed.

(** A short-hand entry is refused exactly when it is an array, with the
    message [Unexpected array in options]; the share scope of a parsed
    entry, short-hand or long-hand, is never the empty string; and a
    long-hand entry without [shareKey] is shared under its key. *)
Theorem parsed_consumes_are_well_formed :
  (∀ optionsShareScope item key,
     (∃ message,
        consumeSimple parseRange isRequiredVersion optionsShareScope item key
          = Thrown message) ↔
     ∃ items, item = ItemArray items) ∧
  (∀ optionsShareScope items key,
     consumeSimple parseRange isRequiredVersion optionsShareScope (ItemArray items) key
       = Thrown "Unexpected array in options") ∧
  (∀ optionsShareScope item key entry,
     consumeSimple parseRange isRequiredVersion optionsShareScope item key = Ok entry →
     shareScope entry ≠ "" ∧ shareKey entry = key) ∧
  (∀ optionsShareScope item key,
     shareScope (consumeOptions parseRange optionsShareScope item key) ≠ "" ∧
     (cfgShareKey item = None →
      shareKey (consumeOptions parseRange optionsShareScope item key) = key) ∧
     (import (consumeOptions parseRange optionsShareScope item key) = None ↔
      cfgImport item = ImportFalse)).
Proof.
  split; [|split; [|split]].
  - intros optionsShareScope [item|items] key; simpl.
    + split; [by intros [? ?] | by intros [? ?]].
    + split; [by eexists | by eexists].
  - done.
  - intros optionsShareScope [item|items] key entry; simpl; [|done].
    intros [= <-].
    destruct (String.eqb item key || negb (isRequiredVersion item)); simpl;
      (split; [by apply orElse_default | done]).
  - intros optionsShareScope item key. simpl. split; [|split].
    + apply orElse_default. by apply orElse_default.
    + by intros ->.
    + by destruct (cfgImport item).
Qed.

End Mappers.

(** *** Creating the module *)

Section Creation.

Context {Range DescriptionData : Type}.
Variable parseRange : string → Range.
Variable compilerContext : string.
Variable resolve : string → string → Resolution.
Variable getDescriptionFile : string → DescriptionLookup DescriptionData.
Variable getRequiredVersionFromDescriptionFile : DescriptionData → string → option string.

Local Abbreviation determine :=
  (determineRequiredVersion parseRange getDescriptionFile
     getRequiredVersionFromDescriptionFile).
Local Abbreviation fallback := (resolveFallback compilerContext resolve).
Local Abbreviation create :=
  (createConsumeSharedModule parseRange compilerContext resolve getDescriptionFile
     getRequiredVersionFromDescriptionFile).
Local Abbreviation lookup :=
  (lookupRequiredVersion parseRange getDescriptionFile
     getRequiredVersionFromDescriptionFile).

(** [createConsumeSharedModule] in terms of its two promises. *)
Lemma create_unfold (context request : string) (config : ConsumeOptions Range)
    (c : Compilation) :
  create context request config c =
  ({| ConsumeShared.context := moduleContext compilerContext context config;
      options :=
        {| import := if truthyStr (fallback context request config c).1
                     then import config else None;
           shareScope := shareScope config;
           shareKey := shareKey config;
           requiredVersion :=
             (determine context request config (fallback context request config c).2).1;
           packageName := packageName config;
           strictVersion := strictVersion config;
           singleton := singleton config;
           eager := eager config;
           importResolved := (fallback context request config c).1 |} |},
   (determine context request config (fallback context request config c).2).2).
Proof.
  unfold createConsumeSharedModule.
  destruct (fallback context request config c) as [resolvedImport c1]. simpl.
  by destruct (determine context request config c1).
Qed.

(** What the resolution of the fallback leaves untouched. *)
Lemma fallback_frame (context request : string) (config : ConsumeOptions Range)
    (c : Compilation) :
  warnings (fallback context request config c).2 = warnings c ∧
  descriptionLookups (fallback context request config c).2 = descriptionLookups c.
Proof. unfold resolveFallback. by destruct (truthyStr (import config)). Qed.

(** What the determination of the version leaves untouched. *)
Lemma lookup_frame (context request name : string) (c : Compilation) :
  errors (lookup context request name c).2 = errors c ∧
  contextDependencies (lookup context request name c).2 = contextDependencies c ∧
  fileDependencies (lookup context request name c).2 = fileDependencies c ∧
  missingDependencies (lookup context request name c).2 = missingDependencies c ∧
  descriptionLookups (lookup context request name c).2 = descriptionLookups c ++ [context] ∧
  ∃ ws, warnings (lookup context request name c).2 = warnings c ++ ws ∧ length ws ≤ 1.
Proof.
  unfold lookupRequiredVersion.
  destruct (getDescriptionFile context) as [e | [data|] path]; simpl.
  - repeat split. eexists [_]. split; [done | simpl; lia].
  - destruct (getRequiredVersionFromDescriptionFile data name); simpl; repeat split.
    + exists []. split; [by rewrite app_nil_r | simpl; lia].
    + eexists [_]. split; [done | simpl; lia].
  - repeat split. eexists [_]. split; [done | simpl; lia].
Qed.

Lemma determine_frame (context request : string) (config : ConsumeOptions Range)
    (c : Compilation) :
  errors (determine context request config c).2 = errors c ∧
  contextDependencies (determine context request config c).2 = contextDependencies c ∧
  fileDependencies (determine context request config c).2 = fileDependencies c ∧
  missingDependencies (determine context request config c).2 = missingDependencies c ∧
  (∃ ls, descriptionLookups (determine context request config c).2 =
           descriptionLookups c ++ ls ∧ length ls ≤ 1) ∧
  ∃ ws, warnings (determine context request config c).2 = warnings c ++ ws ∧ length ws ≤ 1.
Proof.
  assert (Hnone : ∀ c' : Compilation,
            c' = c ∨ (∃ d, c' = requiredVersionWarning request d c) →
            errors c' = errors c ∧
            contextDependencies c' = contextDependencies c ∧
            fileDependencies c' = fileDependencies c ∧
            missingDependencies c' = missingDependencies c ∧
            (∃ ls, descriptionLookups c' = descriptionLookups c ++ ls ∧ length ls ≤ 1) ∧
            ∃ ws, warnings c' = warnings c ++ ws ∧ length ws ≤ 1).
  { intros c' [-> | [d ->]]; simpl; repeat split.
    - exists []. split; [by rewrite app_nil_r | simpl; lia].
    - exists []. split; [by rewrite app_nil_r | simpl; lia].
    - exists []. split; [by rewrite app_nil_r | simpl; lia].
    - eexists [_]. split; [done | simpl; lia]. }
  assert (Hlookup : ∀ name,
            errors (lookup context request name c).2 = errors c ∧
            contextDependencies (lookup context request name c).2 = contextDependencies c ∧
            fileDependencies (lookup context request name c).2 = fileDependencies c ∧
            missingDependencies (lookup context request name c).2 = missingDependencies c ∧
            (∃ ls, descriptionLookups (lookup context request name c).2 =
                     descriptionLookups c ++ ls ∧ length ls ≤ 1) ∧
            ∃ ws, warnings (lookup context request name c).2 = warnings c ++ ws ∧
                  length ws ≤ 1).
  { intros name.
    destruct (lookup_frame context request name c) as (? & ? & ? & ? & Hl & ?).
    repeat split; try done. exists [context]. split; [done | simpl; lia]. }
  unfold determineRequiredVersion.
  destruct (requiredVersion config); try (apply Hnone; by left).
  destruct (packageName config); [apply Hlookup|].
  destruct (absolutePattern request); [apply Hnone; by left|].
  destruct (packageNamePattern request); [apply Hlookup|].
  apply Hnone. right. by eexists.
Qed.

(** Creating a module never drops a diagnostic: the warnings, the errors
    and the description-file lookups made before stay in front, and at most
    one warning, one error and one lookup are added. *)
Theorem create_adds_at_most_one_of_each (context request : string)
    (config : ConsumeOptions Range) (c : Compilation) :
  (∃ ws, warnings (create context request config c).2 = warnings c ++ ws ∧
         length ws ≤ 1) ∧
  (∃ es, errors (create context request config c).2 = errors c ++ es ∧
         length es ≤ 1) ∧
  (∃ ls, descriptionLookups (create context request config c).2 =
           descriptionLookups c ++ ls ∧ length ls ≤ 1).
Proof.
  rewrite create_unfold. simpl.
  destruct (fallback_frame context request config c) as [Hw Hl].
  destruct (determine_frame context request config (fallback context request config c).2)
    as (He & _ & _ & _ & Hls & Hws).
  rewrite Hw in Hws. rewrite Hl in Hls. rewrite He.
  repeat split; [done | | done].
  unfold resolveFallback. destruct (truthyStr (import config)); simpl.
  - destruct (resolveErr _); eexists; (split; [done | simpl; lia]).
  - exists []. split; [by rewrite app_nil_r | simpl; lia].
Qed.

(** A required version that is configured, a range or [false], is taken as
    it is: no description file is looked up and no warning is reported. *)
Theorem configured_version_is_kept (context request : string)
    (config : ConsumeOptions Range) (c : Compilation) :
  requiredVersion config ≠ RVUndefined →
  requiredVersion (options (create context request config c).1) = requiredVersion config ∧
  warnings (create context request config c).2 = warnings c ∧
  descriptionLookups (create context request config c).2 = descriptionLookups c.
Proof.
  intros Hrv. rewrite create_unfold. simpl.
  destruct (fallback_frame context request config c) as [Hw Hl].
  unfold determineRequiredVersion.
  destruct (requiredVersion config); [done | by simpl | by simpl].
Qed.

(** When no required version is configured, a package name is at hand
    (given as [packageName], or read off a request that is not absolute),
    and the description file found lists a version for it, the module
    requires that version, parsed; the description file is looked up once,
    from the issuer's directory, and nothing is reported. *)
Theorem listed_version_is_inferred (context request name path version : string)
    (data : DescriptionData) (config : ConsumeOptions Range) (c : Compilation) :
  requiredVersion config = RVUndefined →
  inferredPackageName request config = Some name →
  getDescriptionFile context = DescriptionResult (Some data) path →
  getRequiredVersionFromDescriptionFile data name = Some version →
  requiredVersion (options (create context request config c).1)
    = RVRange (parseRange version) ∧
  warnings (create context request config c).2 = warnings c ∧
  descriptionLookups (create context request config c).2 =
    descriptionLookups c ++ [context].
Proof.
  intros Hrv Hname Hget Hversion. rewrite create_unfold. simpl.
  destruct (fallback_frame context request config c) as [Hw Hl].
  assert (Hdet : ∀ c1, determine context request config c1 =
                       (RVRange (parseRange version), logDescriptionLookup context c1)).
  { intros c1. unfold determineRequiredVersion. rewrite Hrv.
    unfold inferredPackageName in Hname.
    assert (Hl1 : lookup context request name c1 =
                  (RVRange (parseRange version), logDescriptionLookup context c1)).
    { unfold lookupRequiredVersion. by rewrite Hget, Hversion. }
    destruct (packageName config); [by injection Hname as ->|].
    destruct (absolutePattern request); [done|].
    destruct (packageNamePattern request); [by injection Hname as -> | done]. }
  rewrite Hdet. simpl. by rewrite Hw, Hl.
Qed.

(** When the fallback does not resolve, one error naming the request is
    reported and the module is still created, without import target. *)
Theorem unresolved_fallback_drops_import (context request target e : string)
    (config : ConsumeOptions Range) (c : Compilation) :
  import config = Some target →
  target ≠ "" →
  resolveErr (resolve (moduleContext compilerContext context config) target) = Some e →
  import (options (create context request config c).1) = None ∧
  importResolved (options (create context request config c).1) = None ∧
  errors (create context request config c).2 =
    errors c ++ [{| err := e;
                    locName := "resolving fallback for shared module " +:+ request |}].
Proof.
  intros Himport Hne Herr. rewrite create_unfold. simpl.
  destruct (determine_frame context request config (fallback context request config c).2)
    as (He & _).
  rewrite He. unfold resolveFallback. rewrite Himport. simpl.
  apply String.eqb_neq in Hne. rewrite Hne. simpl. by rewrite Herr.
Qed.

(** When the fallback resolves, the module keeps its import target and
    records what it resolved to; no error is reported, and the
    dependencies collected by the resolver are added to the compilation. *)
Theorem resolved_fallback_is_recorded (context request target result : string)
    (config : ConsumeOptions Range) (c : Compilation) :
  import config = Some target →
  target ≠ "" →
  resolveErr (resolve (moduleContext compilerContext context config) target) = None →
  resolveResult (resolve (moduleContext compilerContext context config) target)
    = Some result →
  result ≠ "" →
  import (options (create context request config c).1) = Some target ∧
  importResolved (options (create context request config c).1) = Some result ∧
  errors (create context request config c).2 = errors c ∧
  fileDependencies (create context request config c).2 =
    fileDependencies c ++
    resolvedFileDependencies (resolve (moduleContext compilerContext context config) target) ∧
  contextDependencies (create context request config c).2 =
    contextDependencies c ++
    resolvedContextDependencies (resolve (moduleContext compilerContext context config) target) ∧
  missingDependencies (create context request config c).2 =
    missingDependencies c ++
    resolvedMissingDependencies (resolve (moduleContext compilerContext context config) target).
Proof.
  intros Himport Hne Herr Hres Hresult. rewrite create_unfold. simpl.
  destruct (determine_frame context request config (fallback context request config c).2)
    as (He & Hc & Hf & Hm & _).
  rewrite He, Hc, Hf, Hm. unfold resolveFallback. rewrite Himport. simpl.
  apply String.eqb_neq in Hne. rewrite Hne. simpl. rewrite Herr, Hres. simpl.
  apply String.eqb_neq in Hresult. rewrite Hresult. simpl.
  by rewrite app_nil_r.
Qed.

(** Without an import target (sharing with [import: false]) the resolver
    is not asked: no error is reported and no dependency is added, and the
    module has neither import target nor resolved import. *)
Theorem disabled_import_skips_the_resolver (context request : string)
    (config : ConsumeOptions Range) (c : Compilation) :
  import config = None →
  import (options (create context request config c).1) = None ∧
  importResolved (options (create context request config c).1) = None ∧
  ConsumeShared.context (create context request config c).1 = context ∧
  errors (create context request config c).2 = errors c ∧
  fileDependencies (create context request config c).2 = fileDependencies c ∧
  contextDependencies (create context request config c).2 = contextDependencies c ∧
  missingDependencies (create context request config c).2 = missingDependencies c.
Proof.
  intros Himport. rewrite create_unfold. simpl.
  destruct (determine_frame context request config (fallback context request config c).2)
    as (He & Hc & Hf & Hm & _).
  rewrite He, Hc, Hf, Hm. unfold resolveFallback, moduleContext, directFallback.
  by rewrite Himport.
Qed.

(** The module is created in the compiler's context when its import target
    is a relative or an absolute path, and in the issuer's context
    otherwise; share scope, share key, package name and the three flags are
    those of the options. *)
Theorem module_context_follows_import (context request target : string)
    (config : ConsumeOptions Range) (c : Compilation) :
  import config = Some target →
  ConsumeShared.context (create context request config c).1 =
    (if relativePattern target || absolutePattern target
     then compilerContext else context) ∧
  shareScope (options (create context request config c).1) = shareScope config ∧
  shareKey (options (create context request config c).1) = shareKey config ∧
  packageName (options (create context request config c).1) = packageName config ∧
  strictVersion (options (create context request config c).1) = strictVersion config ∧
  singleton (options (create context request config c).1) = singleton config ∧
  eager (options (create context request config c).1) = eager config.
Proof.
  intros Himport. rewrite create_unfold. simpl. repeat split.
  unfold moduleContext, directFallback, directFallbackPattern. rewrite Himport. simpl.
  destruct target as [|ch target]; [done|]. done.
Qed.

End Creation.

(** Witness for [configured_version_is_kept]. *)
Lemma configured_version_is_kept_witness :
  let result := createConsumeSharedModule rangeText "/app" findsAll reactProject listedIn
                  "/app/src" "lodash" (withVersion "lodash" "^4.17.0") fresh in
  requiredVersion (options result.1) = requiredVersion (withVersion "lodash" "^4.17.0") ∧
  warnings result.2 = warnings fresh ∧
  descriptionLookups result.2 = descriptionLookups fresh.
Proof.
  intros result.
  apply (configured_version_is_kept rangeText "/app" findsAll reactProject listedIn
           "/app/src" "lodash" (withVersion "lodash" "^4.17.0") fresh).
  discriminate.
Defined.

(** Witness for [listed_version_is_inferred]: [react/jsx-runtime] in a
    project that lists [react]. *)
Lemma listed_version_is_inferred_witness :
  let result := createConsumeSharedModule rangeText "/app" findsAll reactProject listedIn
                  "/app/src" "react/jsx-runtime" (autoVersion "react/jsx-runtime") fresh in
  requiredVersion (options result.1) = RVRange (rangeText "^18.2.0") ∧
  warnings result.2 = warnings fresh ∧
  descriptionLookups result.2 = descriptionLookups fresh ++ ["/app/src"].
Proof.
  intros result.
  apply (listed_version_is_inferred rangeText "/app" findsAll reactProject listedIn
           "/app/src" "react/jsx-runtime" "react" "/app/package.json" "^18.2.0"
           [("react", "^18.2.0")] (autoVersion "react/jsx-runtime") fresh);
    reflexivity.
Defined.

(** Witness for [unresolved_fallback_drops_import]. *)
Lemma unresolved_fallback_drops_import_witness :
  let result := createConsumeSharedModule rangeText "/app" findsNothing reactProject listedIn
                  "/app/src" "react" (autoVersion "react") fresh in
  import (options result.1) = None ∧
  importResolved (options result.1) = None ∧
  errors result.2 =
    errors fresh ++ [{| err := "Can't resolve react";
                        locName := "resolving fallback for shared module " +:+ "react" |}].
Proof.
  intros result.
  apply (unresolved_fallback_drops_import rangeText "/app" findsNothing reactProject
           listedIn "/app/src" "react" "react" "Can't resolve react"
           (autoVersion "react") fresh); [reflexivity | discriminate | reflexivity].
Defined.

(** Witness for [resolved_fallback_is_recorded]. *)
Lemma resolved_fallback_is_recorded_witness :
  let result := createConsumeSharedModule rangeText "/app" findsAll reactProject listedIn
                  "/app/src" "react" (autoVersion "react") fresh in
  import (options result.1) = Some "react" ∧
  importResolved (options result.1) = Some "/app/src/react" ∧
  errors result.2 = errors fresh ∧
  fileDependencies result.2 =
    fileDependencies fresh ++
    resolvedFileDependencies
      (findsAll (moduleContext "/app" "/app/src" (autoVersion "react")) "react") ∧
  contextDependencies result.2 =
    contextDependencies fresh ++
    resolvedContextDependencies
      (findsAll (moduleContext "/app" "/app/src" (autoVersion "react")) "react") ∧
  missingDependencies result.2 =
    missingDependencies fresh ++
    resolvedMissingDependencies
      (findsAll (moduleContext "/app" "/app/src" (autoVersion "react")) "react").
Proof.
  intros result.
  apply (resolved_fallback_is_recorded rangeText "/app" findsAll reactProject listedIn
           "/app/src" "react" "react" "/app/src/react" (autoVersion "react") fresh);
    [reflexivity | discriminate | reflexivity | reflexivity | discriminate].
Defined.

(** Witness for [disabled_import_skips_the_resolver]. *)
Lemma disabled_import_skips_the_resolver_witness :
  let result := createConsumeSharedModule rangeText "/app" findsNothing reactProject listedIn
                  "/app/src" "shared/x" (prefixOptions "shared/x") fresh in
  import (options result.1) = None ∧
  importResolved (options result.1) = None ∧
  context result.1 = "/app/src" ∧
  errors result.2 = errors fresh ∧
  fileDependencies result.2 = fileDependencies fresh ∧
  contextDependencies result.2 = contextDependencies fresh ∧
  missingDependencies result.2 = missingDependencies fresh.
Proof.
  intros result.
  apply (disabled_import_skips_the_resolver rangeText "/app" findsNothing reactProject
           listedIn "/app/src" "shared/x" (prefixOptions "shared/x") fresh).
  reflexivity.
Defined.

(** Witness for [module_context_follows_import]: a relative import
    target. *)
Lemma module_context_follows_import_witness :
  let config := autoVersion "./src/shared" in
  let result := createConsumeSharedModule rangeText "/app" findsAll reactProject listedIn
                  "/app/src/pages" "shared" config fresh in
  context result.1 =
    (if relativePattern "./src/shared" || absolutePattern "./src/shared"
     then "/app" else "/app/src/pages") ∧
  shareScope (options result.1) = shareScope config ∧
  shareKey (options result.1) = shareKey config ∧
  packageName (options result.1) = packageName config ∧
  strictVersion (options result.1) = strictVersion config ∧
  singleton (options result.1) = singleton config ∧
  eager (options result.1) = eager config.
Proof.
  intros config result.
  apply (module_context_follows_import rangeText "/app" findsAll reactProject listedIn
           "/app/src/pages" "shared" "./src/shared" config fresh).
  reflexivity.
Defined.

(** *** The hooks *)

Section Hooks.

Context {Range DescriptionData : Type}.
Variable parseRange : string → Range.
Variable compilerContext : string.
Variable resolve : string → string → Resolution.
Variable getDescriptionFile : string → DescriptionLookup DescriptionData.
Variable getRequiredVersionFromDescriptionFile : DescriptionData → string → option string.

Local Abbreviation create :=
  (createConsumeSharedModule parseRange compilerContext resolve getDescriptionFile
     getRequiredVersionFromDescriptionFile).
Local Abbreviation prefixed :=
  (factorizePrefixed parseRange compilerContext resolve getDescriptionFile
     getRequiredVersionFromDescriptionFile).
Local Abbreviation factorizeHook :=
  (factorize parseRange compilerContext resolve getDescriptionFile
     getRequiredVersionFromDescriptionFile).
Local Abbreviation createModuleHook :=
  (createModule parseRange compilerContext resolve getDescriptionFile
     getRequiredVersionFromDescriptionFile).

Lemma prefixed_some (prefixedConsumes : list (string * ConsumeOptions Range))
    (context request : string) (c : Compilation) :
  is_Some (prefixed prefixedConsumes context request c).1 ↔
  Exists (λ po, ∃ rest, request = po.1 +:+ rest) prefixedConsumes.
Proof.
  induction prefixedConsumes as [|[p o] ps IH]; simpl.
  - split; [by intros [? ?] | by intros ?%Exists_nil].
  - destruct (startsWith request p) eqn:Hs.
    + destruct (create context request _ c) as [m c']. simpl. split; [|eauto].
      intros _. apply Exists_cons_hd. by apply startsWith_inv.
    + rewrite IH. split; [apply Exists_cons_tl|].
      intros [[rest Hrest] | H]%Exists_cons; [|done].
      simpl in Hrest. subst request. by rewrite startsWith_app in Hs.
Qed.

Lemma prefixed_none_keeps (prefixedConsumes : list (string * ConsumeOptions Range))
    (context request : string) (c : Compilation) :
  (prefixed prefixedConsumes context request c).1 = None →
  (prefixed prefixedConsumes context request c).2 = c.
Proof.
  induction prefixedConsumes as [|[p o] ps IH]; simpl; [done|].
  destruct (startsWith request p); [|done].
  by destruct (create context request _ c).
Qed.

(** A hook that creates no module leaves the compilation as it was:
    nothing is resolved, looked up or reported for a request the plugin
    does not take. *)
Theorem declined_request_leaves_no_trace
    (unresolvedConsumes resolvedConsumes : gmap string (ConsumeOptions Range))
    (prefixedConsumes : list (string * ConsumeOptions Range))
    (context request : string) (dependency : Dependency) (c : Compilation) :
  ((factorizeHook unresolvedConsumes prefixedConsumes context request dependency c).1
     = None →
   (factorizeHook unresolvedConsumes prefixedConsumes context request dependency c).2
     = c) ∧
  ((createModuleHook resolvedConsumes request context dependency c).1 = None →
   (createModuleHook resolvedConsumes request context dependency c).2 = c).
Proof.
  split.
  - unfold factorize. destruct dependency; try done.
    destruct (unresolvedConsumes !! request) as [matched|].
    + by destruct (create context request matched c).
    + apply prefixed_none_keeps.
  - unfold createModule. destruct dependency; try done.
    destruct (resolvedConsumes !! request) as [o|]; [|done].
    by destruct (create context request o c).
Qed.

(** The [factorize] hook creates a module exactly when the dependency is
    neither a fallback of a consumed module nor provided for sharing, and
    the request is an unresolved key or starts with a configured
    prefix. *)
Theorem factorize_creates_iff
    (unresolvedConsumes : gmap string (ConsumeOptions Range))
    (prefixedConsumes : list (string * ConsumeOptions Range))
    (context request : string) (dependency : Dependency) (c : Compilation) :
  is_Some (factorizeHook unresolvedConsumes prefixedConsumes context request dependency c).1
  ↔ dependency = OtherDependency ∧
    (is_Some (unresolvedConsumes !! request) ∨
     Exists (λ po, ∃ rest, request = po.1 +:+ rest) prefixedConsumes).
Proof.
  unfold factorize. destruct dependency; simpl.
  - split; [by intros [? ?] | by intros [? _]].
  - split; [by intros [? ?] | by intros [? _]].
  - destruct (unresolvedConsumes !! request) as [matched|].
    + destruct (create context request matched c). simpl. split; eauto.
    + rewrite prefixed_some. split; [by eauto | by intros [_ [[? ?] | ?]]].
Qed.

(** A request that is an unresolved key is created from the options of
    that key as they are, whatever prefixes are configured: its share key
    gets no remainder. *)
Theorem exact_key_beats_prefixes
    (unresolvedConsumes : gmap string (ConsumeOptions Range))
    (prefixedConsumes : list (string * ConsumeOptions Range))
    (context request : string) (matched : ConsumeOptions Range) (c : Compilation) :
  unresolvedConsumes !! request = Some matched →
  factorizeHook unresolvedConsumes prefixedConsumes context request OtherDependency c =
    (Some (create context request matched c).1, (create context request matched c).2) ∧
  ∃ m, (factorizeHook unresolvedConsumes prefixedConsumes context request
          OtherDependency c).1 = Some m ∧
       shareKey (options m) = shareKey matched.
Proof.
  intros Hmatch. unfold factorize. rewrite Hmatch.
  destruct (create_keeps_share_key parseRange compilerContext resolve getDescriptionFile
              getRequiredVersionFromDescriptionFile context request matched c)
    as [Hkey _].
  destruct (create context request matched c) as [m c']. simpl in *.
  split; [done|]. by exists m.
Qed.

(** A module taken by its resolved path is created under that path as
    request: with an absolute path, no configured version and no package
    name, its required version stays undefined, and this silently, without
    lookup or warning. *)
Theorem resolved_path_gets_no_version
    (resolvedConsumes : gmap string (ConsumeOptions Range))
    (resource context : string) (config : ConsumeOptions Range) (c : Compilation) :
  resolvedConsumes !! resource = Some config →
  absolutePattern resource = true →
  requiredVersion config = RVUndefined →
  packageName config = None →
  ∃ m c',
    createModuleHook resolvedConsumes resource context OtherDependency c = (Some m, c') ∧
    requiredVersion (options m) = RVUndefined ∧
    warnings c' = warnings c ∧
    descriptionLookups c' = descriptionLookups c.
Proof.
  intros Hres Habs Hrv Hpn. unfold createModule. rewrite Hres.
  unfold createConsumeSharedModule.
  pose proof (resolveFallback_warnings compilerContext resolve context resource config c)
    as Hw.
  assert (Hl : descriptionLookups
                 (resolveFallback compilerContext resolve context resource config c).2
               = descriptionLookups c).
  { unfold resolveFallback. by destruct (truthyStr (import config)). }
  destruct (resolveFallback compilerContext resolve context resource config c)
    as [resolvedImport c1].
  rewrite (absolute_request_skips_inference parseRange getDescriptionFile
             getRequiredVersionFromDescriptionFile context resource config c1 Hrv Hpn Habs).
  by eexists _, _.
Qed.

End Hooks.

(** Witness for [exact_key_beats_prefixes]: [shared/utils] is a key of its
    own below the prefix [shared/]. *)
Lemma exact_key_beats_prefixes_witness :
  let unresolvedConsumes : gmap string (ConsumeOptions string) :=
    {[ "shared/utils" := prefixOptions "utils" ]} in
  let prefixedConsumes := [("shared/", prefixOptions "shared/")] in
  factorize rangeText "/app" findsAll reactProject listedIn
    unresolvedConsumes prefixedConsumes "/app/src" "shared/utils" OtherDependency fresh =
    (Some (createConsumeSharedModule rangeText "/app" findsAll reactProject listedIn
             "/app/src" "shared/utils" (prefixOptions "utils") fresh).1,
     (createConsumeSharedModule rangeText "/app" findsAll reactProject listedIn
        "/app/src" "shared/utils" (prefixOptions "utils") fresh).2) ∧
  ∃ m, (factorize rangeText "/app" findsAll reactProject listedIn
          unresolvedConsumes prefixedConsumes "/app/src" "shared/utils"
          OtherDependency fresh).1 = Some m ∧
       shareKey (options m) = shareKey (prefixOptions "utils").
Proof.
  intros unresolvedConsumes prefixedConsumes.
  apply (exact_key_beats_prefixes rangeText "/app" findsAll reactProject listedIn
           unresolvedConsumes prefixedConsumes "/app/src" "shared/utils"
           (prefixOptions "utils") fresh).
  reflexivity.
Defined.

(** Witness for [resolved_path_gets_no_version]. *)
Lemma resolved_path_gets_no_version_witness :
  let resolvedConsumes : gmap string (ConsumeOptions string) :=
    {[ "/app/src/shared.js" := autoVersion "./src/shared" ]} in
  ∃ m c',
    createModule rangeText "/app" findsAll reactProject listedIn
      resolvedConsumes "/app/src/shared.js" "/app/src" OtherDependency fresh = (Some m, c') ∧
    requiredVersion (options m) = RVUndefined ∧
    warnings c' = warnings fresh ∧
    descriptionLookups c' = descriptionLookups fresh.
Proof.
  intros resolvedConsumes.
  apply (resolved_path_gets_no_version rangeText "/app" findsAll reactProject listedIn
           resolvedConsumes "/app/src/shared.js" "/app/src" (autoVersion "./src/shared")
           fresh); reflexivity.
Defined.

End ConsumeSharedExtras.
